(** * GBRegOD: sliding-window, regression-based outlier detector

    A shallow embedding of [tods/detection_algorithm/core/GBRegOD.py].

    - Samples are rationals ([Q]); the floating-point rounding of numpy is
      not modelled, only the order and the arithmetic of the values.
    - Python integers (window size, step, indices) are [Z].
    - A detector instance is a record whose fitted attributes are [option]s:
      [None] is "the attribute does not exist yet".
    - A method is a computation in a state-and-exception monad in which the
      instance survives a raised exception, as a Python object does.
    - The gradient-boosted regressor of scikit-learn is an interface
      ([Regressor]); every statement holds for any implementation of it. *)

From Stdlib Require Import ZArith QArith Qabs Qround List Bool Lia.
From Stdlib Require Import Sorted.
Import ListNotations.
Open Scope Z_scope.

Set Implicit Arguments.

(** ** Python exceptions and results *)

Module Py.

Inductive exn : Type :=
| ValueError
| IndexError
| AttributeError
| NotFittedError
| InvalidInputError.

Inductive result (A : Type) : Type :=
| Ok (a : A)
| Raise (e : exn).

Arguments Ok {A} a.
Arguments Raise {A} e.

Definition rbind {A B : Type} (r : result A) (k : A -> result B) : result B :=
  match r with
  | Ok a => k a
  | Raise e => Raise e
  end.

(** [for x in l: ys.append(f x)], stopping at the first exception. *)
Fixpoint rmap {A B : Type} (f : A -> result B) (l : list A) : result (list B) :=
  match l with
  | [] => Ok []
  | x :: l' =>
      rbind (f x) (fun y => rbind (rmap f l') (fun ys => Ok (y :: ys)))
  end.

(** [range(n)] *)
Definition range (n : nat) : list Z := map Z.of_nat (seq 0 n).

End Py.
Export Py.

(** ** The numpy operations the detector uses *)

Module Numpy.

Definition matrix : Type := list (list Q).

(** [a[k]] on the first axis: a negative [k] counts from the end, anything
    outside [-len(a) .. len(a)-1] raises IndexError. *)
Definition getitem {A : Type} (a : list A) (k : Z) : result A :=
  let n := Z.of_nat (length a) in
  let k' := if k <? 0 then k + n else k in
  if (0 <=? k') && (k' <? n)
  then match nth_error a (Z.to_nat k') with
       | Some x => Ok x
       | None => Raise IndexError
       end
  else Raise IndexError.

(** [a[:-1]] *)
Definition drop_last {A : Type} (a : list A) : list A := removelast a.

(** [a[lo:hi]] for [0 <= lo]. *)
Definition slice {A : Type} (a : list A) (lo hi : Z) : list A :=
  firstn (Z.to_nat (hi - lo)) (skipn (Z.to_nat lo) a).

(** [np.zeros((n,))]: a negative dimension raises ValueError. *)
Definition zeros {A : Type} (zero : A) (n : Z) : result (list A) :=
  if n <? 0 then Raise ValueError else Ok (repeat zero (Z.to_nat n)).

(** [y_buf[i] = row] where [y_buf] has shape [(n, 1)]: the slot [y_buf[i]]
    has shape [(1,)], and only a one-element row broadcasts into it. *)
Definition assign_row (row : list Q) : result Q :=
  match row with
  | [v] => Ok v
  | _ => Raise ValueError
  end.

(** [np.absolute(y - p)] on two vectors of the same length. *)
Fixpoint abs_diff (y p : list Q) : list Q :=
  match y, p with
  | a :: y', b :: p' => Qabs (a - b) :: abs_diff y' p'
  | _, _ => []
  end.

(** [s > t] on samples. *)
Definition gtb (s t : Q) : bool := negb (Qle_bool s t).

(** [(scores > t).astype('int')] *)
Definition binarize (t : Q) (scores : list Q) : list Z :=
  map (fun s => if gtb s t then 1 else 0) scores.

End Numpy.
Export Numpy.

(** ** scikit-learn: input validation and the regressor interface *)

Module Sklearn.

Definition n_features (X : matrix) : nat :=
  match X with
  | [] => O
  | row :: _ => length row
  end.

Definition rectangular (X : matrix) : bool :=
  forallb (fun row => Nat.eqb (length row) (n_features X)) X.

(** [check_array(X)]: a two-dimensional array with at least one sample and
    at least one feature, else ValueError. *)
Definition check_array (X : matrix) : result matrix :=
  if rectangular X && negb (Nat.eqb (length X) 0) && negb (Nat.eqb (n_features X) 0)
  then Ok X
  else Raise ValueError.

(** What the detector needs of [GradientBoostingRegressor]: training gives a
    model, and a model predicts one value per sample. *)
Record Regressor : Type := {
  model : Type;
  train : matrix -> list Q -> model;
  raw_predict : model -> matrix -> list Q;
  raw_predict_length :
    forall (m : model) (X : matrix), length (raw_predict m X) = length X
}.

(** An estimator object is created unfitted and becomes fitted in place. *)
Inductive estimator (R : Regressor) : Type :=
| Unfitted
| Fitted (m : model R).

Arguments Unfitted {R}.
Arguments Fitted {R} m.

(** [est.fit(X, y)]: scikit-learn rejects an empty training set. *)
Definition estimator_fit (R : Regressor) (X : matrix) (y : list Q)
  : result (estimator R) :=
  match X with
  | [] => Raise ValueError
  | _ => Ok (Fitted (train R X y))
  end.

(** [est.predict(X)]: NotFittedError on an unfitted estimator, ValueError on
    an empty sample set. *)
Definition estimator_predict (R : Regressor) (est : estimator R) (X : matrix)
  : result (list Q) :=
  match est with
  | Unfitted => Raise NotFittedError
  | Fitted m =>
      match X with
      | [] => Raise ValueError
      | _ => Ok (raw_predict R m X)
      end
  end.

End Sklearn.
Export Sklearn.

(** ** [utility.get_sub_matrices] *)

Module Utility.

(** Modelled from the spec: [get_sub_matrices] of [core/utility.py], which is
    not among the available sources.  Section 4.1 of the specification: for a
    sequence of length [N], window size [W] and step [S] it fails with an
    InvalidInputError when [N < W]; otherwise it produces
    [floor((N - W) / S) + 1] windows, window [i] being the flattened rows
    [i*S .. i*S + W - 1], with [left_inds[i] = i*S] and
    [right_inds[i] = i*S + W].  The specification gives this contract for
    [1 <= W] and [1 <= S] only, and so does every statement below. *)
Definition get_sub_matrices (X : matrix) (window_size step : Z)
  : result (matrix * list Z * list Z) :=
  let N := Z.of_nat (length X) in
  if N <? window_size then Raise InvalidInputError
  else
    let n_windows := (N - window_size) / step + 1 in
    let left_inds := map (fun i => i * step) (range (Z.to_nat n_windows)) in
    let right_inds := map (fun l => l + window_size) left_inds in
    let sub_matrices :=
      map (fun l => concat (slice X l (l + window_size))) left_inds in
    Ok (sub_matrices, left_inds, right_inds).

End Utility.
Export Utility.

(** ** The thresholding layer of the base detector *)

Module CollectiveBase.

(** Modelled from the spec: the constructor check of [CollectiveBaseDetector]
    ([core/CollectiveBase.py], not among the available sources).  Sections
    4.2 and 7 of the specification: a contamination outside the open
    interval (0, 0.5) is a ValueError-class failure at construction. *)
Definition valid_contamination (c : Q) : bool :=
  gtb c 0 && gtb (1 # 2) c.

Fixpoint insert_sorted (x : Q) (l : list Q) : list Q :=
  match l with
  | [] => [x]
  | y :: l' => if Qle_bool x y then x :: l else y :: insert_sorted x l'
  end.

(** A full ascending sort of the scores. *)
Definition sort (l : list Q) : list Q := fold_right insert_sorted [] l.

(** [floor(len(S) * c)] *)
Definition n_outliers (scores : list Q) (c : Q) : nat :=
  Z.to_nat (Qfloor (inject_Z (Z.of_nat (length scores)) * c)).

(** Modelled from the spec: the threshold of [_process_decision_scores]
    ([core/CollectiveBase.py], not among the available sources).  Section 4.3
    of the specification: the (1 - c) quantile computed via a full sort, the
    value that [floor(len(S) * c)] scores lie above in sorted order. *)
Definition quantile_threshold (scores : list Q) (c : Q) : Q :=
  nth (length scores - 1 - n_outliers scores c) (sort scores) 0%Q.

(** How many scores are strictly above [t]. *)
Definition count_above (t : Q) (scores : list Q) : nat :=
  length (filter (fun s => gtb s t) scores).

End CollectiveBase.
Export CollectiveBase.

(** ** The detector *)

Section Detector.

Context (R : Regressor).

(** The instance attributes.  The three constructor parameters always
    exist; the trailing-underscore attributes exist once assigned. *)
Record GBRegOD : Type := mkGBRegOD {
  contamination : Q;
  window_size : Z;
  step_size : Z;
  left_inds_ : option (list Z);
  right_inds_ : option (list Z);
  valid_len_ : option nat;
  gbr_ : option (estimator R);
  decision_scores_ : option (list Q);
  threshold_ : option Q;
  labels_ : option (list Z)
}.

Definition with_left_inds_ (v : list Z) (self : GBRegOD) : GBRegOD :=
  mkGBRegOD (contamination self) (window_size self) (step_size self)
    (Some v) (right_inds_ self) (valid_len_ self) (gbr_ self)
    (decision_scores_ self) (threshold_ self) (labels_ self).

Definition with_right_inds_ (v : list Z) (self : GBRegOD) : GBRegOD :=
  mkGBRegOD (contamination self) (window_size self) (step_size self)
    (left_inds_ self) (Some v) (valid_len_ self) (gbr_ self)
    (decision_scores_ self) (threshold_ self) (labels_ self).

Definition with_valid_len_ (v : nat) (self : GBRegOD) : GBRegOD :=
  mkGBRegOD (contamination self) (window_size self) (step_size self)
    (left_inds_ self) (right_inds_ self) (Some v) (gbr_ self)
    (decision_scores_ self) (threshold_ self) (labels_ self).

Definition with_gbr_ (v : estimator R) (self : GBRegOD) : GBRegOD :=
  mkGBRegOD (contamination self) (window_size self) (step_size self)
    (left_inds_ self) (right_inds_ self) (valid_len_ self) (Some v)
    (decision_scores_ self) (threshold_ self) (labels_ self).

Definition with_decision_scores_ (v : list Q) (self : GBRegOD) : GBRegOD :=
  mkGBRegOD (contamination self) (window_size self) (step_size self)
    (left_inds_ self) (right_inds_ self) (valid_len_ self) (gbr_ self)
    (Some v) (threshold_ self) (labels_ self).

Definition with_threshold_ (v : Q) (self : GBRegOD) : GBRegOD :=
  mkGBRegOD (contamination self) (window_size self) (step_size self)
    (left_inds_ self) (right_inds_ self) (valid_len_ self) (gbr_ self)
    (decision_scores_ self) (Some v) (labels_ self).

Definition with_labels_ (v : list Z) (self : GBRegOD) : GBRegOD :=
  mkGBRegOD (contamination self) (window_size self) (step_size self)
    (left_inds_ self) (right_inds_ self) (valid_len_ self) (gbr_ self)
    (decision_scores_ self) (threshold_ self) (Some v).

(** *** Methods: state and exceptions

    A method maps the instance to an outcome and the instance afterwards.
    An exception keeps every assignment made before it was raised. *)

Definition method (A : Type) : Type := GBRegOD -> result A * GBRegOD.

Definition ret {A : Type} (a : A) : method A := fun self => (Ok a, self).

Definition bind {A B : Type} (c : method A) (k : A -> method B) : method B :=
  fun self =>
    match c self with
    | (Ok a, self') => k a self'
    | (Raise e, self') => (Raise e, self')
    end.

(** A computation that does not touch the instance. *)
Definition lift {A : Type} (r : result A) : method A := fun self => (r, self).

(** [self.attr] for an attribute that always exists. *)
Definition read {A : Type} (attr : GBRegOD -> A) : method A :=
  fun self => (Ok (attr self), self).

(** [self.attr] for an attribute that may not exist yet. *)
Definition getattr {A : Type} (attr : GBRegOD -> option A) : method A :=
  fun self =>
    match attr self with
    | Some v => (Ok v, self)
    | None => (Raise AttributeError, self)
    end.

(** [self.attr = v] *)
Definition assign (update : GBRegOD -> GBRegOD) : method unit :=
  fun self => (Ok tt, update self).

(** [hasattr(self, attr)] *)
Definition hasattr {A : Type} (attr : GBRegOD -> option A) (self : GBRegOD)
  : bool :=
  match attr self with
  | Some _ => true
  | None => false
  end.

(** [check_is_fitted(self, attributes)]: NotFittedError unless every listed
    attribute exists. *)
Definition check_is_fitted (attributes : list (GBRegOD -> bool)) : method unit :=
  fun self =>
    if forallb (fun has => has self) attributes
    then (Ok tt, self)
    else (Raise NotFittedError, self).

Notation "x <- c ;; k" := (bind c (fun x => k))
  (at level 61, c at next level, right associativity).
Notation "c ;;; k" := (bind c (fun _ => k))
  (at level 61, right associativity).

(** *** [CollectiveBaseDetector] *)

(** Modelled from the spec: [CollectiveBaseDetector.__init__] of
    [core/CollectiveBase.py], which is not among the available sources.  It
    is called with the contamination only, checks it and stores it. *)
Definition CollectiveBaseDetector_init (contamination : Q) : result Q :=
  if valid_contamination contamination
  then Ok contamination
  else Raise ValueError.

(** Modelled from the spec: [_process_decision_scores] of
    [core/CollectiveBase.py], which is not among the available sources.
    Section 4.3 of the specification: [threshold_] is the (1 - c) quantile
    of [decision_scores_], and [labels_[i]] is 1 if
    [decision_scores_[i] > threshold_] and 0 otherwise. *)
Definition _process_decision_scores : method unit :=
  scores <- getattr decision_scores_ ;;
  c <- read contamination ;;
  assign (with_threshold_ (quantile_threshold scores c)) ;;;
  t <- getattr threshold_ ;;
  assign (with_labels_ (binarize t scores)).

(** *** [GBRegOD.__init__] *)

(** The base constructor receives the contamination alone; the window and
    step sizes are stored as given. *)
Definition GBRegOD_init (window_size step_size : Z) (contamination : Q)
  : result GBRegOD :=
  rbind (CollectiveBaseDetector_init contamination) (fun c =>
  Ok (mkGBRegOD c window_size step_size None None None None None None None)).

(** *** The target loop

    [for i in range(valid_len): y_buf[i] = X[i * step_size + window_size]] *)
Definition fill_targets (X : matrix) (step_size window_size : Z)
  (valid_len : nat) : result (list Q) :=
  rmap (fun i => rbind (getitem X (i * step_size + window_size)) assign_row)
       (range valid_len).

(** *** [GBRegOD.fit] *)

Definition fit (X : matrix) : method unit :=
  X <- lift (check_array X) ;;
  (* generate X and y *)
  W <- read window_size ;;
  S <- read step_size ;;
  windows <- lift (get_sub_matrices X W S) ;;
  let '(sub_matrices, left_inds, right_inds) := windows in
  assign (with_left_inds_ left_inds) ;;;
  assign (with_right_inds_ right_inds) ;;;
  (* remove the last one *)
  let sub_matrices := drop_last sub_matrices in
  left_inds <- getattr left_inds_ ;;
  assign (with_left_inds_ (drop_last left_inds)) ;;;
  right_inds <- getattr right_inds_ ;;
  assign (with_right_inds_ (drop_last right_inds)) ;;;
  assign (with_valid_len_ (length sub_matrices)) ;;;
  valid_len <- getattr valid_len_ ;;
  S <- read step_size ;;
  W <- read window_size ;;
  y_buf <- lift (fill_targets X S W valid_len) ;;
  (* fit the regression model *)
  assign (with_gbr_ Unfitted) ;;;
  est <- lift (estimator_fit R sub_matrices y_buf) ;;
  assign (with_gbr_ est) ;;;
  est <- getattr gbr_ ;;
  pred <- lift (estimator_predict est sub_matrices) ;;
  assign (with_decision_scores_ (abs_diff y_buf pred)) ;;;
  _process_decision_scores.

(** *** [GBRegOD.decision_function] *)

Definition decision_function (X : matrix)
  : method (list Q * list Z * list Z) :=
  check_is_fitted [hasattr gbr_] ;;;
  W <- read window_size ;;
  S <- read step_size ;;
  windows <- lift (get_sub_matrices X W S) ;;
  let '(sub_matrices, X_left_inds, X_right_inds) := windows in
  (* remove the last one *)
  let sub_matrices := drop_last sub_matrices in
  let X_left_inds := drop_last X_left_inds in
  let X_right_inds := drop_last X_right_inds in
  let valid_len := length sub_matrices in
  S <- read step_size ;;
  W <- read window_size ;;
  y_buf <- lift (fill_targets X S W valid_len) ;;
  est <- getattr gbr_ ;;
  pred <- lift (estimator_predict est sub_matrices) ;;
  let pred_score := abs_diff y_buf pred in
  ret (pred_score, X_left_inds, X_right_inds).

(** *** [GBRegOD.predict] *)

Definition predict (X : matrix) : method (list Z * list Z * list Z) :=
  check_is_fitted
    [hasattr decision_scores_; hasattr threshold_; hasattr labels_] ;;;
  scored <- decision_function X ;;
  let '(pred_score, X_left_inds, X_right_inds) := scored in
  W <- read window_size ;;
  pad <- lift (zeros 0%Q W) ;;
  let pred_score := pad ++ pred_score in
  W <- read window_size ;;
  pad <- lift (zeros 0 W) ;;
  let X_left_inds := pad ++ X_left_inds in
  W <- read window_size ;;
  pad <- lift (zeros 0 W) ;;
  let X_right_inds := pad ++ X_right_inds in
  t <- getattr threshold_ ;;
  ret (binarize t pred_score, X_left_inds, X_right_inds).

End Detector.

(** ** A concrete regressor and the inputs of the file's own demonstration *)

Module Demo.

(** The simplest implementation of the interface: the forecast for a window
    is its last sample. *)
Definition persistence : Regressor := {|
  model := unit;
  train := fun _ _ => tt;
  raw_predict := fun _ X => map (fun w => last w 0%Q) X;
  raw_predict_length := fun _ X => length_map (fun w => last w 0%Q) X
|}.

Definition column (l : list Q) : matrix := map (fun v => [v]) l.

(** [X_train] of the [__main__] block. *)
Definition X_train : matrix :=
  column [3; 4; 8; 16; 18; 13; 22; 36; 59; 128; 62; 67; 78; 100]%Q.

(** [X_test] of the [__main__] block. *)
Definition X_test : matrix :=
  column [3; 4; 43 # 5; 67 # 5; 45 # 2; 17; 96 # 5; 361 # 10; 127;
          -23; 296 # 5]%Q.

(** A two-column input. *)
Definition X_two_columns : matrix :=
  [[1; 2]; [3; 4]; [5; 6]; [7; 8]; [9; 10]]%Q.

(** A constant series: every forecast is exact, every score is zero. *)
Definition X_flat : matrix := column [5; 5; 5; 5; 5; 5; 5; 5]%Q.

(** Three samples: one window when [window_size = 3], none kept. *)
Definition X_three : matrix := column [1; 2; 3]%Q.

(** Run a sequence of calls on an instance. *)
Definition after {R : Regressor} {A : Type} (c : method R A)
  (r : result (GBRegOD R)) : result (GBRegOD R) :=
  rbind r (fun self => Ok (snd (c self))).

End Demo.
Export Demo.

(** ** Vocabulary of the statements *)

(** Number of rows of the input. *)
Definition n_samples (X : matrix) : Z := Z.of_nat (length X).

(** Windows generated for [N] samples, before the last one is dropped. *)
Definition n_windows (N W S : Z) : nat := Z.to_nat ((N - W) / S + 1).

(** Windows kept once the last one is dropped. *)
Definition n_retained (N W S : Z) : nat := Z.to_nat ((N - W) / S).

(** Left and right boundaries of the first [n] windows. *)
Definition lefts (S : Z) (n : nat) : list Z := map (fun i => i * S) (range n).
Definition rights (W S : Z) (n : nat) : list Z :=
  map (fun l => l + W) (lefts S n).

(** The first [n] flattened windows of [X]. *)
Definition windows_of (X : matrix) (W S : Z) (n : nat) : matrix :=
  map (fun l => concat (slice X l (l + W))) (lefts S n).

(** Every row holds exactly one sample. *)
Definition univariate (X : matrix) : bool :=
  forallb (fun row => Nat.eqb (length row) 1) X.

(** The sample of row [k] of a one-column input. *)
Definition sample (X : matrix) (k : Z) : Q :=
  hd 0%Q (nth (Z.to_nat k) X []).

(** The targets of the first [n] windows: the sample that follows each. *)
Definition targets_of (X : matrix) (W S : Z) (n : nat) : list Q :=
  map (fun l => sample X (l + W)) (lefts S n).

(** Scores equal to [t]. *)
Definition count_ties (t : Q) (scores : list Q) : nat :=
  length (filter (fun s => Qeq_bool s t) scores).

(** The instance a successful constructor call returns. *)
Definition fresh (R : Regressor) (W S : Z) (c : Q) : GBRegOD R :=
  mkGBRegOD (R := R) c W S None None None None None None None.

(** Every fitted attribute exists. *)
Definition populated {R : Regressor} (self : GBRegOD R) : bool :=
  hasattr (@left_inds_ R) self && hasattr (@right_inds_ R) self &&
  hasattr (@valid_len_ R) self && hasattr (@gbr_ R) self &&
  hasattr (@decision_scores_ R) self && hasattr (@threshold_ R) self &&
  hasattr (@labels_ R) self.

(** Atomicity of [fit] in the words of the specification: the call either
    returns with every fitted attribute populated, or raises and leaves the
    instance as it was. *)
Definition fit_is_atomic (R : Regressor) : Prop :=
  forall (self : GBRegOD R) (X : matrix),
    (fst (fit X self) = Ok tt /\ populated (snd (fit X self)) = true) \/
    (exists e, fit X self = (Raise e, self)).

(** The instance as [fit] leaves it once the windows are cut. *)
Definition windowed {R : Regressor} (self : GBRegOD R) (N : Z) : GBRegOD R :=
  let W := window_size self in
  let S := step_size self in
  let n := n_retained N W S in
  mkGBRegOD (R := R) (contamination self) W S
    (Some (lefts S n)) (Some (rights W S n)) (Some n)
    (gbr_ self) (decision_scores_ self) (threshold_ self) (labels_ self).

(** The instance after a successful [fit] on [X]. *)
Definition trained {R : Regressor} (self : GBRegOD R) (X : matrix)
  : GBRegOD R :=
  let W := window_size self in
  let S := step_size self in
  let n := n_retained (n_samples X) W S in
  let sub_matrices := windows_of X W S n in
  let y := targets_of X W S n in
  let m := train R sub_matrices y in
  let scores := abs_diff y (raw_predict R m sub_matrices) in
  let t := quantile_threshold scores (contamination self) in
  mkGBRegOD (R := R) (contamination self) W S
    (Some (lefts S n)) (Some (rights W S n)) (Some n)
    (Some (Fitted m)) (Some scores) (Some t) (Some (binarize t scores)).

(** ** Lists and windows *)

Section Windows.

Lemma range_length (n : nat) : length (range n) = n.
Proof. unfold range. now rewrite length_map, length_seq. Qed.

Lemma range_succ (n : nat) : range (S n) = range n ++ [Z.of_nat n].
Proof. unfold range. now rewrite seq_S, map_app. Qed.

Lemma nth_map_lt {A B : Type} (f : A -> B) (l : list A) (i : nat)
  (da : A) (db : B) :
  (i < length l)%nat -> nth i (map f l) db = f (nth i l da).
Proof.
  revert i. induction l as [|a l IH]; intros [|i] Hi; simpl in *;
    try lia; try reflexivity.
  apply IH. lia.
Qed.

Lemma range_nth (n i : nat) :
  (i < n)%nat -> nth i (range n) 0 = Z.of_nat i.
Proof.
  intros Hi. unfold range.
  rewrite (nth_map_lt _ _ O) by now rewrite length_seq.
  now rewrite seq_nth.
Qed.

Lemma drop_last_map {A B : Type} (f : A -> B) (l : list A) :
  drop_last (map f l) = map f (drop_last l).
Proof.
  unfold drop_last. induction l as [|a [|b l] IH]; simpl in *; try reflexivity.
  now rewrite IH.
Qed.

Lemma drop_last_range (n : nat) : drop_last (range (S n)) = range n.
Proof. rewrite range_succ. apply removelast_last. Qed.

Lemma lefts_length (S : Z) (n : nat) : length (lefts S n) = n.
Proof. unfold lefts. now rewrite length_map, range_length. Qed.

Lemma rights_length (W S : Z) (n : nat) : length (rights W S n) = n.
Proof. unfold rights. now rewrite length_map, lefts_length. Qed.

Lemma windows_of_length (X : matrix) (W S : Z) (n : nat) :
  length (windows_of X W S n) = n.
Proof. unfold windows_of. now rewrite length_map, lefts_length. Qed.

Lemma targets_of_length (X : matrix) (W S : Z) (n : nat) :
  length (targets_of X W S n) = n.
Proof. unfold targets_of. now rewrite length_map, lefts_length. Qed.

Lemma lefts_nth (S : Z) (n i : nat) :
  (i < n)%nat -> nth i (lefts S n) 0 = Z.of_nat i * S.
Proof.
  intros Hi. unfold lefts.
  rewrite (nth_map_lt _ _ 0) by now rewrite range_length.
  now rewrite range_nth.
Qed.

Lemma rights_nth (W S : Z) (n i : nat) :
  (i < n)%nat -> nth i (rights W S n) 0 = nth i (lefts S n) 0 + W.
Proof.
  intros Hi. unfold rights.
  now rewrite (nth_map_lt _ _ 0) by now rewrite lefts_length.
Qed.

Lemma drop_last_lefts (S : Z) (n : nat) :
  drop_last (lefts S (Datatypes.S n)) = lefts S n.
Proof. unfold lefts. now rewrite drop_last_map, drop_last_range. Qed.

Lemma drop_last_rights (W S : Z) (n : nat) :
  drop_last (rights W S (Datatypes.S n)) = rights W S n.
Proof. unfold rights. now rewrite drop_last_map, drop_last_lefts. Qed.

Lemma drop_last_windows_of (X : matrix) (W S : Z) (n : nat) :
  drop_last (windows_of X W S (Datatypes.S n)) = windows_of X W S n.
Proof. unfold windows_of. now rewrite drop_last_map, drop_last_lefts. Qed.

Lemma n_windows_retained (N W S : Z) :
  W <= N -> 1 <= S -> n_windows N W S = Datatypes.S (n_retained N W S).
Proof.
  intros HN HS. unfold n_windows, n_retained.
  assert (0 <= (N - W) / S) by (apply Z.div_pos; lia).
  lia.
Qed.

(** The kept windows end at least one step before the end of the input. *)
Lemma retained_bound (N W S : Z) (i : nat) :
  1 <= W -> 1 <= S -> W <= N -> (i < n_retained N W S)%nat ->
  0 <= Z.of_nat i * S + W < N.
Proof.
  intros HW HS HN Hi. unfold n_retained in Hi.
  assert (Hq : 0 <= (N - W) / S) by (apply Z.div_pos; lia).
  assert (Hm : S * ((N - W) / S) <= N - W) by (apply Z.mul_div_le; lia).
  assert (Hi' : Z.of_nat i + 1 <= (N - W) / S) by lia.
  split; nia.
Qed.

(** [get_sub_matrices] in closed form. *)
Lemma get_sub_matrices_ok (X : matrix) (W S : Z) :
  W <= n_samples X ->
  get_sub_matrices X W S =
    let n := n_windows (n_samples X) W S in
    Ok (windows_of X W S n, lefts S n, rights W S n).
Proof.
  intros HN. unfold get_sub_matrices, n_samples in *.
  destruct (Z.ltb_spec (Z.of_nat (length X)) W); [lia | reflexivity].
Qed.

Lemma get_sub_matrices_short (X : matrix) (W S : Z) :
  n_samples X < W -> get_sub_matrices X W S = Raise InvalidInputError.
Proof.
  intros HN. unfold get_sub_matrices, n_samples in *.
  destruct (Z.ltb_spec (Z.of_nat (length X)) W); [reflexivity | lia].
Qed.

Lemma getitem_in_bounds {A : Type} (a : list A) (k : Z) (d : A) :
  0 <= k < Z.of_nat (length a) -> getitem a k = Ok (nth (Z.to_nat k) a d).
Proof.
  intros Hk. unfold getitem.
  destruct (Z.ltb_spec k 0); [lia |].
  destruct (Z.leb_spec 0 k); [| lia].
  destruct (Z.ltb_spec k (Z.of_nat (length a))); [| lia]. simpl.
  rewrite (nth_error_nth' a d) by lia. reflexivity.
Qed.

End Windows.

(** ** The target loop *)

Section Targets.

Lemma rmap_ok {A B : Type} (f : A -> result B) (h : A -> B) (l : list A) :
  (forall x, In x l -> f x = Ok (h x)) -> rmap f l = Ok (map h l).
Proof.
  induction l as [|a l IH]; intros Hf; simpl; [reflexivity |].
  rewrite (Hf a) by now left. simpl.
  rewrite IH by (intros x Hx; apply Hf; now right). reflexivity.
Qed.

Lemma rmap_raise {A B : Type} (f : A -> result B) (l : list A) (e : exn) :
  rmap f l = Raise e -> exists x, In x l /\ f x = Raise e.
Proof.
  induction l as [|a l IH]; simpl; [discriminate |].
  destruct (f a) as [b|e'] eqn:Ea; simpl.
  - destruct (rmap f l) as [ys|e'] eqn:El; simpl; [discriminate |].
    intros Heq. injection Heq as ->.
    destruct (IH eq_refl) as [x [Hx Hfx]]. exists x. split; [now right | exact Hfx].
  - intros Heq. injection Heq as ->. exists a. split; [now left | exact Ea].
Qed.

Lemma in_range (n : nat) (x : Z) :
  In x (range n) -> exists i, (i < n)%nat /\ x = Z.of_nat i.
Proof.
  unfold range. rewrite in_map_iff. intros [i [Hx Hi]].
  apply in_seq in Hi. exists i. split; [lia | now symmetry].
Qed.

Lemma univariate_row (X : matrix) (k : nat) :
  univariate X = true -> (k < length X)%nat ->
  assign_row (nth k X []) = Ok (hd 0%Q (nth k X [])).
Proof.
  intros HX Hk. unfold univariate in HX. rewrite forallb_forall in HX.
  specialize (HX (nth k X []) (nth_In X [] Hk)).
  apply Nat.eqb_eq in HX.
  destruct (nth k X []) as [|v [|w row]]; simpl in *; try discriminate.
  reflexivity.
Qed.

(** On a one-column input the loop reads, for each kept window, the sample
    right after it. *)
Lemma fill_targets_univariate (X : matrix) (W S : Z) (n : nat) :
  1 <= W -> 1 <= S -> W <= n_samples X ->
  (n <= n_retained (n_samples X) W S)%nat ->
  univariate X = true ->
  fill_targets X S W n = Ok (targets_of X W S n).
Proof.
  intros HW HS HN Hn HX. unfold fill_targets, targets_of, lefts.
  rewrite map_map. apply rmap_ok. intros x Hx.
  destruct (in_range _ _ Hx) as [i [Hi ->]].
  assert (Hb : 0 <= Z.of_nat i * S + W < n_samples X)
    by (apply retained_bound; lia).
  unfold n_samples in Hb.
  rewrite (getitem_in_bounds X [] Hb). simpl.
  unfold sample. apply univariate_row; [exact HX | lia].
Qed.

(** The loop never reads past the end of the input. *)
Lemma fill_targets_in_bounds (X : matrix) (W S : Z) (n : nat) :
  1 <= W -> 1 <= S -> W <= n_samples X ->
  (n <= n_retained (n_samples X) W S)%nat ->
  fill_targets X S W n <> Raise IndexError.
Proof.
  intros HW HS HN Hn Hraise. unfold fill_targets in Hraise.
  destruct (rmap_raise _ _ Hraise) as [x [Hx Hfx]].
  destruct (in_range _ _ Hx) as [i [Hi ->]].
  assert (Hb : 0 <= Z.of_nat i * S + W < n_samples X)
    by (apply retained_bound; lia).
  unfold n_samples in Hb.
  rewrite (getitem_in_bounds X [] Hb) in Hfx. simpl in Hfx.
  destruct (nth (Z.to_nat (Z.of_nat i * S + W)) X []) as [|v [|w row]];
    discriminate.
Qed.

Lemma check_array_ok (X X' : matrix) :
  check_array X = Ok X' ->
  X' = X /\ (1 <= length X)%nat /\ (1 <= n_features X)%nat /\
  forall row, In row X -> length row = n_features X.
Proof.
  unfold check_array.
  destruct (rectangular X) eqn:Hr; simpl; [| discriminate].
  destruct (Nat.eqb_spec (length X) 0); simpl; [discriminate |].
  destruct (Nat.eqb_spec (n_features X) 0); simpl; [discriminate |].
  intros Heq. injection Heq as <-.
  repeat split; try lia.
  intros row Hrow. unfold rectangular in Hr. rewrite forallb_forall in Hr.
  now apply Nat.eqb_eq, Hr.
Qed.

(** With two or more columns the first assignment of the loop already
    fails: a whole row does not fit a one-element slot. *)
Lemma fill_targets_multivariate (X : matrix) (W S : Z) (n : nat) :
  1 <= W -> 1 <= S -> W <= n_samples X ->
  (1 <= n <= n_retained (n_samples X) W S)%nat ->
  (forall row, In row X -> length row = n_features X) ->
  (2 <= n_features X)%nat ->
  fill_targets X S W n = Raise ValueError.
Proof.
  intros HW HS HN Hn Hrows HF. unfold fill_targets.
  destruct n as [|n]; [lia |].
  assert (Hb : 0 <= Z.of_nat 0 * S + W < n_samples X)
    by (apply retained_bound; lia).
  unfold n_samples in Hb. change (Z.of_nat 0 * S + W) with W in Hb.
  unfold range. simpl.
  rewrite (getitem_in_bounds X [] Hb). simpl.
  assert (Hlen : length (nth (Z.to_nat W) X []) = n_features X)
    by (apply Hrows, nth_In; lia).
  destruct (nth (Z.to_nat W) X []) as [|v [|w row]]; simpl in *;
    try lia; reflexivity.
Qed.

End Targets.

(** ** Running the methods *)

(** Reduce attribute reads of an updated instance. *)
Ltac attrs :=
  cbn [contamination window_size step_size left_inds_ right_inds_ valid_len_
       gbr_ decision_scores_ threshold_ labels_
       with_left_inds_ with_right_inds_ with_valid_len_ with_gbr_
       with_decision_scores_ with_threshold_ with_labels_].

(** Unfold the monad one layer. *)
Ltac run := unfold bind, lift, read, assign, getattr, ret; attrs.

Section Runs.

Context (R : Regressor).
Implicit Types (self : GBRegOD R) (X : matrix).

Lemma estimator_fit_nonempty X (y : list Q) :
  (1 <= length X)%nat -> estimator_fit R X y = Ok (Fitted (train R X y)).
Proof. destruct X; simpl; [lia | reflexivity]. Qed.

Lemma estimator_predict_nonempty (m : model R) X :
  (1 <= length X)%nat ->
  estimator_predict (Fitted m) X = Ok (raw_predict R m X).
Proof. destruct X; simpl; [lia | reflexivity]. Qed.

Lemma process_decision_scores_run self (scores : list Q) :
  decision_scores_ self = Some scores ->
  _process_decision_scores self =
    (Ok tt,
     let t := quantile_threshold scores (contamination self) in
     with_labels_ (binarize t scores) (with_threshold_ t self)).
Proof.
  intros Hs. unfold _process_decision_scores. run. rewrite Hs. reflexivity.
Qed.

(** [fit] up to the target loop: the windows are cut, the boundaries and
    the window count are stored, and the rest depends on the loop and on
    the regressor. *)
Lemma fit_run self X :
  let W := window_size self in
  let S := step_size self in
  let N := n_samples X in
  let n := n_retained N W S in
  1 <= S -> W <= N -> check_array X = Ok X ->
  fit X self =
    match fill_targets X S W n with
    | Ok y =>
        match estimator_fit R (windows_of X W S n) y with
        | Ok est =>
            match estimator_predict est (windows_of X W S n) with
            | Ok p =>
                _process_decision_scores
                  (with_decision_scores_ (abs_diff y p)
                     (with_gbr_ est (windowed self N)))
            | Raise e => (Raise e, with_gbr_ est (windowed self N))
            end
        | Raise e => (Raise e, with_gbr_ Unfitted (windowed self N))
        end
    | Raise e => (Raise e, windowed self N)
    end.
Proof.
  intros W S N n HS HN Hc. subst W S N n.
  unfold fit. run. rewrite Hc.
  rewrite get_sub_matrices_ok by lia. cbv zeta.
  rewrite (n_windows_retained (N := n_samples X)) by lia. attrs.
  rewrite drop_last_lefts, drop_last_rights, drop_last_windows_of,
    windows_of_length.
  destruct (fill_targets _ _ _ _) as [y|e]; [| reflexivity].
  destruct (estimator_fit _ _ _) as [est|e]; [| reflexivity].
  destruct (estimator_predict _ _) as [p|e]; reflexivity.
Qed.

Lemma fit_invalid self X (e : exn) :
  check_array X = Raise e -> fit X self = (Raise e, self).
Proof. intros Hc. unfold fit. run. now rewrite Hc. Qed.

Lemma fit_short self X :
  check_array X = Ok X -> n_samples X < window_size self ->
  fit X self = (Raise InvalidInputError, self).
Proof.
  intros Hc HN. unfold fit. run. rewrite Hc.
  now rewrite get_sub_matrices_short.
Qed.


(** No kept window: the regressor refuses the empty training set, after the
    boundaries, the count and the estimator object were stored. *)
Lemma fit_no_window self X :
  let W := window_size self in
  let S := step_size self in
  1 <= S -> W <= n_samples X < W + S -> check_array X = Ok X ->
  fit X self =
    (Raise ValueError, with_gbr_ Unfitted (windowed self (n_samples X))).
Proof.
  intros W S HS HN Hc. subst W S.
  assert (Hn : n_retained (n_samples X) (window_size self) (step_size self)
               = O).
  { unfold n_retained. rewrite Z.div_small by lia. reflexivity. }
  rewrite fit_run by (try lia; assumption). cbv zeta. rewrite Hn. reflexivity.
Qed.

(** Two or more columns and at least one kept window: the target loop
    raises, after the boundaries and the count were stored. *)
Lemma fit_multivariate self X :
  let W := window_size self in
  let S := step_size self in
  1 <= W -> 1 <= S -> W + S <= n_samples X ->
  check_array X = Ok X -> (2 <= n_features X)%nat ->
  fit X self = (Raise ValueError, windowed self (n_samples X)).
Proof.
  intros W S HW HS HN Hc HF. subst W S.
  assert (Hn : (1 <= n_retained (n_samples X) (window_size self)
                       (step_size self))%nat).
  { unfold n_retained.
    assert (1 <= (n_samples X - window_size self) / step_size self)
      by (apply Z.div_le_lower_bound; lia).
    lia. }
  rewrite fit_run by (try lia; assumption). cbv zeta.
  rewrite fill_targets_multivariate; try lia; try reflexivity.
  apply (check_array_ok _ Hc).
Qed.

End Runs.

(** ** Sorting, counting and the threshold *)

Section Threshold.

Lemma gtb_true (s t : Q) : gtb s t = true <-> (t < s)%Q.
Proof.
  unfold gtb. rewrite negb_true_iff. split.
  - intros H. apply Qnot_le_lt. intros Hle.
    apply Qle_bool_iff in Hle. congruence.
  - intros H. destruct (Qle_bool s t) eqn:E; [| reflexivity].
    apply Qle_bool_iff in E. exfalso. exact (Qlt_not_le _ _ H E).
Qed.

Lemma gtb_false (s t : Q) : gtb s t = false <-> (s <= t)%Q.
Proof.
  unfold gtb. rewrite negb_false_iff. apply Qle_bool_iff.
Qed.

Lemma count_above_app (t : Q) (l l' : list Q) :
  count_above t (l ++ l') = (count_above t l + count_above t l')%nat.
Proof. unfold count_above. now rewrite filter_app, length_app. Qed.

Lemma count_above_le_length (t : Q) (l : list Q) :
  (count_above t l <= length l)%nat.
Proof. unfold count_above. apply filter_length_le. Qed.

Lemma count_above_none (t : Q) (l : list Q) :
  Forall (fun s => (s <= t)%Q) l -> count_above t l = O.
Proof.
  unfold count_above. induction 1 as [|s l Hs _ IH]; simpl; [reflexivity |].
  apply gtb_false in Hs. now rewrite Hs.
Qed.

Lemma count_above_all (t : Q) (l : list Q) :
  Forall (fun s => (t < s)%Q) l -> count_above t l = length l.
Proof.
  unfold count_above. induction 1 as [|s l Hs _ IH]; simpl; [reflexivity |].
  apply gtb_true in Hs. rewrite Hs. simpl. now rewrite IH.
Qed.

Lemma count_above_insert (t x : Q) (l : list Q) :
  count_above t (insert_sorted x l) = count_above t (x :: l).
Proof.
  unfold count_above. induction l as [|y l IH]; simpl; [reflexivity |].
  destruct (Qle_bool x y); simpl; [reflexivity |].
  destruct (gtb y t); simpl; rewrite IH; simpl; destruct (gtb x t);
    reflexivity.
Qed.

(** Sorting moves the scores, it does not change how many lie above [t]. *)
Lemma count_above_sort (t : Q) (l : list Q) :
  count_above t (sort l) = count_above t l.
Proof.
  induction l as [|x l IH]; simpl; [reflexivity |].
  rewrite count_above_insert. unfold count_above in *. simpl.
  destruct (gtb x t); simpl; now rewrite IH.
Qed.

Lemma count_ties_insert (t x : Q) (l : list Q) :
  count_ties t (insert_sorted x l) = count_ties t (x :: l).
Proof.
  unfold count_ties. induction l as [|y l IH]; simpl; [reflexivity |].
  destruct (Qle_bool x y); simpl; [reflexivity |].
  destruct (Qeq_bool y t); simpl; rewrite IH; simpl; destruct (Qeq_bool x t);
    reflexivity.
Qed.

Lemma count_ties_sort (t : Q) (l : list Q) :
  count_ties t (sort l) = count_ties t l.
Proof.
  induction l as [|x l IH]; simpl; [reflexivity |].
  rewrite count_ties_insert. unfold count_ties in *. simpl.
  destruct (Qeq_bool x t); simpl; now rewrite IH.
Qed.

Lemma insert_sorted_length (x : Q) (l : list Q) :
  length (insert_sorted x l) = Datatypes.S (length l).
Proof.
  induction l as [|y l IH]; simpl; [reflexivity |].
  destruct (Qle_bool x y); simpl; now rewrite ?IH.
Qed.

Lemma sort_length (l : list Q) : length (sort l) = length l.
Proof.
  induction l as [|x l IH]; simpl; [reflexivity |].
  now rewrite insert_sorted_length, IH.
Qed.

Lemma insert_sorted_Forall (P : Q -> Prop) (x : Q) (l : list Q) :
  P x -> Forall P l -> Forall P (insert_sorted x l).
Proof.
  intros Hx Hl. induction Hl as [|y l Hy Hl IH]; simpl.
  - now constructor.
  - destruct (Qle_bool x y); repeat constructor; assumption.
Qed.

Lemma sort_Forall (P : Q -> Prop) (l : list Q) :
  Forall P l -> Forall P (sort l).
Proof.
  induction 1 as [|x l Hx _ IH]; simpl; [constructor |].
  now apply insert_sorted_Forall.
Qed.

Lemma insert_sorted_sorted (x : Q) (l : list Q) :
  StronglySorted Qle l -> StronglySorted Qle (insert_sorted x l).
Proof.
  induction 1 as [|y l Hl IH Hy]; simpl.
  - repeat constructor.
  - destruct (Qle_bool x y) eqn:E.
    + apply Qle_bool_iff in E. constructor; [now constructor |].
      constructor; [exact E |].
      eapply Forall_impl; [| exact Hy].
      intros z Hz. eapply Qle_trans; eassumption.
    + constructor; [exact IH |].
      apply insert_sorted_Forall; [| exact Hy].
      apply Qlt_le_weak, gtb_true. unfold gtb. now rewrite E.
Qed.

Lemma sort_sorted (l : list Q) : StronglySorted Qle (sort l).
Proof.
  induction l as [|x l IH]; simpl; [constructor |].
  now apply insert_sorted_sorted.
Qed.

Lemma sorted_nth_le (l : list Q) (i j : nat) :
  StronglySorted Qle l -> (i <= j < length l)%nat ->
  (nth i l 0 <= nth j l 0)%Q.
Proof.
  intros Hl. revert i j.
  induction Hl as [|x l Hl IH Hx]; intros i j Hij; simpl in Hij; [lia |].
  destruct i as [|i], j as [|j]; simpl; try lia.
  - apply Qle_refl.
  - rewrite Forall_forall in Hx. apply Hx, nth_In. lia.
  - apply IH. lia.
Qed.

Lemma Forall_nth_range (P : Q -> Prop) (l : list Q) :
  (forall i, (i < length l)%nat -> P (nth i l 0%Q)) -> Forall P l.
Proof.
  intros H. apply Forall_forall. intros x Hx.
  destruct (In_nth l x 0%Q Hx) as [i [Hi <-]]. now apply H.
Qed.

End Threshold.

Section Quantile.

Lemma valid_contamination_range (c : Q) :
  valid_contamination c = true <-> (0 < c /\ c < 1 # 2)%Q.
Proof.
  unfold valid_contamination. rewrite andb_true_iff, !gtb_true. reflexivity.
Qed.

(** For a contamination below one half, fewer outliers are asked for than
    there are scores. *)
Lemma n_outliers_lt (scores : list Q) (c : Q) :
  valid_contamination c = true -> scores <> [] ->
  (n_outliers scores c < length scores)%nat.
Proof.
  intros Hc Hs. apply valid_contamination_range in Hc. destruct Hc as [Hc0 Hc1].
  unfold n_outliers.
  set (n := Z.of_nat (length scores)).
  assert (Hn : 1 <= n) by (destruct scores; [congruence | subst n; simpl length; lia]).
  assert (Hlt : Qfloor (inject_Z n * c) < n).
  { rewrite Zlt_Qlt. eapply Qle_lt_trans; [apply Qfloor_le |].
    assert (Hq : (inject_Z 0 < inject_Z n)%Q) by (rewrite <- Zlt_Qlt; lia).
    apply Qlt_le_trans with (inject_Z n * 1)%Q.
    - apply Qmult_lt_l; [exact Hq |].
      eapply Qlt_trans; [exact Hc1 | reflexivity].
    - rewrite Qmult_1_r. apply Qle_refl. }
  lia.
Qed.

Lemma count_ties_app (t : Q) (l l' : list Q) :
  count_ties t (l ++ l') = (count_ties t l + count_ties t l')%nat.
Proof. unfold count_ties. now rewrite filter_app, length_app. Qed.

Lemma count_ties_in (t x : Q) (l : list Q) :
  In x l -> (x == t)%Q -> (1 <= count_ties t l)%nat.
Proof.
  intros Hx Heq. unfold count_ties.
  induction l as [|y l IH]; simpl in *; [contradiction |].
  destruct Hx as [-> | Hx].
  - apply Qeq_bool_iff in Heq. rewrite Heq. simpl. lia.
  - specialize (IH Hx). destruct (Qeq_bool y t); simpl; lia.
Qed.

Section Split.

Variables (scores : list Q) (c : Q).

Let L := sort scores.
Let j := (length scores - 1 - n_outliers scores c)%nat.
Let t := quantile_threshold scores c.

Hypothesis nonempty : scores <> [].

Lemma threshold_position : (j < length L)%nat /\ t = nth j L 0%Q.
Proof.
  subst L j t. rewrite sort_length. split; [| reflexivity].
  destruct scores; [congruence | simpl; lia].
Qed.

Lemma threshold_head : Forall (fun s => (s <= t)%Q) (firstn (Datatypes.S j) L).
Proof.
  destruct threshold_position as [Hj Ht].
  apply Forall_nth_range. intros i Hi.
  rewrite length_firstn in Hi. rewrite nth_firstn.
  destruct (Nat.ltb_spec i (Datatypes.S j)); [| lia].
  rewrite Ht. apply sorted_nth_le; [apply sort_sorted | lia].
Qed.

Lemma threshold_tail : Forall (fun s => (t <= s)%Q) (skipn (Datatypes.S j) L).
Proof.
  destruct threshold_position as [Hj Ht].
  apply Forall_nth_range. intros i Hi.
  rewrite length_skipn in Hi. rewrite nth_skipn.
  rewrite Ht. apply sorted_nth_le; [apply sort_sorted | lia].
Qed.

(** At most [floor(len(S) * c)] scores lie strictly above the threshold. *)
Lemma threshold_count_le :
  (count_above t scores <= n_outliers scores c)%nat.
Proof.
  destruct threshold_position as [Hj _].
  rewrite <- count_above_sort. fold L.
  rewrite <- (firstn_skipn (Datatypes.S j) L), count_above_app.
  rewrite (count_above_none threshold_head).
  pose proof (count_above_le_length t (skipn (Datatypes.S j) L)) as Hle.
  rewrite length_skipn in Hle. subst L j. rewrite sort_length in *. lia.
Qed.

(** Exactly that many when no other score equals the threshold. *)
Lemma threshold_count_eq :
  valid_contamination c = true -> count_ties t scores = 1%nat ->
  count_above t scores = n_outliers scores c.
Proof.
  intros Hc Hties.
  destruct threshold_position as [Hj Ht].
  pose proof (@n_outliers_lt scores c Hc nonempty) as Hk.
  rewrite <- count_ties_sort in Hties. fold L in Hties.
  rewrite <- (firstn_skipn (Datatypes.S j) L), count_ties_app in Hties.
  assert (Hhead : (1 <= count_ties t (firstn (Datatypes.S j) L))%nat).
  { apply (count_ties_in (x := nth j L 0%Q)); [| now rewrite Ht].
    assert (Hnth : nth j (firstn (Datatypes.S j) L) 0%Q = nth j L 0%Q).
    { rewrite nth_firstn.
      destruct (Nat.ltb_spec j (Datatypes.S j)); [reflexivity | lia]. }
    rewrite <- Hnth. apply nth_In. rewrite length_firstn. lia. }
  assert (Htail : Forall (fun s => (t < s)%Q) (skipn (Datatypes.S j) L)).
  { apply Forall_forall. intros s Hs.
    pose proof threshold_tail as Hge. rewrite Forall_forall in Hge.
    destruct (proj1 (Qle_lteq t s) (Hge s Hs)) as [Hlt | Heq]; [exact Hlt |].
    assert (1 <= count_ties t (skipn (Datatypes.S j) L))%nat
      by (apply (count_ties_in (x := s)); [exact Hs | now symmetry]).
    lia. }
  rewrite <- count_above_sort. fold L.
  rewrite <- (firstn_skipn (Datatypes.S j) L), count_above_app.
  rewrite (count_above_none threshold_head), (count_above_all Htail).
  rewrite length_skipn. subst L j. rewrite sort_length in *. lia.
Qed.

End Split.

End Quantile.

(** ** Inference *)

Section Inference.

Context (R : Regressor).
Implicit Types (self : GBRegOD R) (X : matrix).

Lemma abs_diff_length (y p : list Q) :
  length y = length p -> length (abs_diff y p) = length y.
Proof.
  revert p. induction y as [|a y IH]; intros [|b p] Hlen; simpl in *;
    try discriminate; try reflexivity.
  now rewrite IH by lia.
Qed.

Lemma abs_diff_nonneg (y p : list Q) :
  Forall (fun s => (0 <= s)%Q) (abs_diff y p).
Proof.
  revert p. induction y as [|a y IH]; intros [|b p]; cbn [abs_diff];
    constructor; [apply Qabs_nonneg | apply IH].
Qed.

Lemma quantile_threshold_nonneg (scores : list Q) (c : Q) :
  Forall (fun s => (0 <= s)%Q) scores -> (0 <= quantile_threshold scores c)%Q.
Proof.
  intros Hs. unfold quantile_threshold.
  destruct (nth_in_or_default
              (length scores - 1 - n_outliers scores c) (sort scores) 0%Q)
    as [Hin | ->]; [| apply Qle_refl].
  pose proof (sort_Forall Hs) as HF.
  rewrite Forall_forall in HF. now apply HF.
Qed.

(** The zero entries put in front of the scores are never above a
    non-negative threshold. *)
Lemma binarize_pad (t : Q) (n : nat) (scores : list Q) :
  (0 <= t)%Q ->
  binarize t (repeat 0%Q n ++ scores) = repeat 0 n ++ binarize t scores.
Proof.
  intros Ht. unfold binarize. rewrite map_app. f_equal.
  induction n as [|n IH]; simpl; [reflexivity |].
  rewrite IH. apply gtb_false in Ht. now rewrite Ht.
Qed.

Lemma binarize_length (t : Q) (scores : list Q) :
  length (binarize t scores) = length scores.
Proof. unfold binarize. apply length_map. Qed.

(** [decision_function] assigns to no attribute. *)
Lemma decision_function_frame self X : snd (decision_function X self) = self.
Proof.
  unfold decision_function, check_is_fitted. run.
  destruct (forallb _ _); [| reflexivity].
  destruct (get_sub_matrices _ _ _) as [[[subs l] r]|e]; [| reflexivity].
  destruct (fill_targets _ _ _ _) as [y|e]; [| reflexivity].
  destruct (gbr_ self) as [est|]; [| reflexivity].
  destruct (estimator_predict _ _) as [p|e]; reflexivity.
Qed.

Lemma decision_function_unfitted self X :
  gbr_ self = None -> decision_function X self = (Raise NotFittedError, self).
Proof.
  intros Hg. unfold decision_function, check_is_fitted, hasattr. run.
  cbn [forallb andb]. now rewrite Hg.
Qed.

(** [decision_function] once the windows are cut. *)
Lemma decision_function_run self X (est : estimator R) :
  let W := window_size self in
  let S := step_size self in
  let n := n_retained (n_samples X) W S in
  1 <= S -> W <= n_samples X -> gbr_ self = Some est ->
  decision_function X self =
    (match fill_targets X S W n with
     | Ok y =>
         match estimator_predict est (windows_of X W S n) with
         | Ok p => Ok (abs_diff y p, lefts S n, rights W S n)
         | Raise e => Raise e
         end
     | Raise e => Raise e
     end, self).
Proof.
  intros W S n HS HN Hg. subst W S n.
  unfold decision_function, check_is_fitted, hasattr. run.
  cbn [forallb andb]. rewrite Hg. cbn [andb].
  rewrite get_sub_matrices_ok by lia. cbv zeta.
  rewrite (n_windows_retained (N := n_samples X)) by lia.
  rewrite drop_last_lefts, drop_last_rights, drop_last_windows_of,
    windows_of_length.
  destruct (fill_targets _ _ _ _) as [y|e]; [| reflexivity].
  rewrite Hg.
  destruct (estimator_predict _ _) as [p|e]; reflexivity.
Qed.

Lemma n_retained_pos (N W S : Z) :
  1 <= S -> W + S <= N -> (1 <= n_retained N W S)%nat.
Proof.
  intros HS HN. unfold n_retained.
  assert (1 <= (N - W) / S) by (apply Z.div_le_lower_bound; lia).
  lia.
Qed.

(** One column, at least one kept window, a fitted regressor: the scores
    are the distances between each next sample and its forecast. *)
Lemma decision_function_univariate self X (m : model R) :
  let W := window_size self in
  let S := step_size self in
  let n := n_retained (n_samples X) W S in
  1 <= W -> 1 <= S -> W + S <= n_samples X -> univariate X = true ->
  gbr_ self = Some (Fitted m) ->
  decision_function X self =
    (Ok (abs_diff (targets_of X W S n)
           (raw_predict R m (windows_of X W S n)),
         lefts S n, rights W S n), self).
Proof.
  intros W S n HW HS HN HX Hg. subst W S n.
  assert (Hn : (1 <= n_retained (n_samples X) (window_size self)
                       (step_size self))%nat)
    by (apply n_retained_pos; lia).
  rewrite (@decision_function_run self X (Fitted m))
    by (try lia; assumption).
  cbv zeta.
  rewrite fill_targets_univariate by (try lia; assumption).
  rewrite estimator_predict_nonempty by now rewrite windows_of_length.
  reflexivity.
Qed.

Lemma predict_unfitted self X :
  decision_scores_ self = None \/ threshold_ self = None \/
  labels_ self = None ->
  predict X self = (Raise NotFittedError, self).
Proof.
  intros H. unfold predict, check_is_fitted, hasattr. run. simpl forallb.
  destruct H as [-> | [-> | ->]]; simpl;
    repeat match goal with |- context [match ?o with Some _ => _ | None => _ end] =>
      destruct o end; reflexivity.
Qed.

(** [predict] in terms of [decision_function]. *)
Lemma predict_run self X (scores : list Q) (t : Q) (labels : list Z) :
  decision_scores_ self = Some scores -> threshold_ self = Some t ->
  labels_ self = Some labels -> 0 <= window_size self ->
  predict X self =
    (match fst (decision_function X self) with
     | Ok (pred_score, l, r) =>
         let w := Z.to_nat (window_size self) in
         Ok (binarize t (repeat 0%Q w ++ pred_score),
             repeat 0 w ++ l, repeat 0 w ++ r)
     | Raise e => Raise e
     end, self).
Proof.
  intros Hs Ht Hl HW.
  unfold predict, check_is_fitted, hasattr. run. simpl forallb.
  rewrite Hs, Ht, Hl. simpl.
  pose proof (decision_function_frame self X) as Hframe.
  destruct (decision_function X self) as [[[[sc l] r]|e] self'];
    simpl in Hframe; subst self'; simpl; [| reflexivity].
  unfold zeros. destruct (Z.ltb_spec (window_size self) 0); [lia |].
  now rewrite Ht.
Qed.

End Inference.

(** ** What a successful [fit] tells *)

Section FitSucceeds.

Context (R : Regressor).
Implicit Types (self : GBRegOD R) (X : matrix).

Lemma rmap_ok_inv {A B : Type} (f : A -> result B) (h : A -> B)
  (l : list A) (ys : list B) :
  (forall x v, In x l -> f x = Ok v -> v = h x) ->
  rmap f l = Ok ys -> ys = map h l.
Proof.
  revert ys. induction l as [|a l IH]; intros ys Hf; simpl.
  - intros Heq. now injection Heq as <-.
  - destruct (f a) as [b|e] eqn:Ea; simpl; [| discriminate].
    destruct (rmap f l) as [zs|e] eqn:El; simpl; [| discriminate].
    intros Heq. injection Heq as <-.
    rewrite (Hf a b (or_introl eq_refl) Ea).
    rewrite (IH zs) by (try reflexivity; intros x v Hx; apply Hf; now right).
    reflexivity.
Qed.

Lemma fill_targets_ok_inv X (W S : Z) (n : nat) (y : list Q) :
  1 <= W -> 1 <= S -> W <= n_samples X ->
  (n <= n_retained (n_samples X) W S)%nat ->
  fill_targets X S W n = Ok y -> y = targets_of X W S n.
Proof.
  intros HW HS HN Hn. unfold fill_targets, targets_of, lefts.
  rewrite map_map. apply rmap_ok_inv. intros x v Hx.
  destruct (in_range _ _ Hx) as [i [Hi ->]].
  assert (Hb : 0 <= Z.of_nat i * S + W < n_samples X)
    by (apply retained_bound; lia).
  unfold n_samples in Hb.
  rewrite (getitem_in_bounds X [] Hb). simpl. unfold sample.
  destruct (nth (Z.to_nat (Z.of_nat i * S + W)) X []) as [|a [|b row]];
    simpl; try discriminate.
  intros Heq. now injection Heq as <-.
Qed.

(** [fit] returns only on a well-formed input with at least one kept
    window whose target rows hold one sample each, and then the instance is
    [trained]. *)
Lemma fit_ok_inv self X :
  let W := window_size self in
  let S := step_size self in
  1 <= W -> 1 <= S -> fst (fit X self) = Ok tt ->
  check_array X = Ok X /\ W + S <= n_samples X /\
  fit X self = (Ok tt, trained self X).
Proof.
  intros W S HW HS Hok. subst W S.
  destruct (check_array X) as [X'|e] eqn:Hc.
  2:{ rewrite (fit_invalid _ _ Hc) in Hok. discriminate. }
  destruct (check_array_ok _ Hc) as [-> _].
  destruct (Z.lt_ge_cases (n_samples X) (window_size self)) as [Hlt | HN].
  { rewrite fit_short in Hok by assumption. discriminate. }
  destruct (Z.lt_ge_cases (n_samples X) (window_size self + step_size self))
    as [Hlt | HN'].
  { rewrite fit_no_window in Hok by (try lia; assumption). discriminate. }
  assert (Hn : (1 <= n_retained (n_samples X) (window_size self)
                       (step_size self))%nat)
    by (apply n_retained_pos; lia).
  repeat split; try assumption.
  rewrite fit_run in * by (try lia; assumption). cbv zeta in *.
  destruct (fill_targets _ _ _ _) as [y|e] eqn:Hy; [| discriminate].
  apply fill_targets_ok_inv in Hy; try lia. subst y.
  rewrite estimator_fit_nonempty by now rewrite windows_of_length.
  rewrite estimator_predict_nonempty by now rewrite windows_of_length.
  erewrite process_decision_scores_run by reflexivity.
  reflexivity.
Qed.

End FitSucceeds.

(** ** Every outcome of the two methods *)

Section Outcomes.

Context (R : Regressor).
Implicit Types (self : GBRegOD R) (X : matrix).

Lemma fill_targets_raises X (W S : Z) (n : nat) (e : exn) :
  1 <= W -> 1 <= S -> W <= n_samples X ->
  (n <= n_retained (n_samples X) W S)%nat ->
  fill_targets X S W n = Raise e -> e = ValueError.
Proof.
  intros HW HS HN Hn Hraise. unfold fill_targets in Hraise.
  destruct (rmap_raise _ _ Hraise) as [x [Hx Hfx]].
  destruct (in_range _ _ Hx) as [i [Hi ->]].
  assert (Hb : 0 <= Z.of_nat i * S + W < n_samples X)
    by (apply retained_bound; lia).
  unfold n_samples in Hb.
  rewrite (getitem_in_bounds X [] Hb) in Hfx. simpl in Hfx.
  destruct (nth (Z.to_nat (Z.of_nat i * S + W)) X []) as [|v [|w row]];
    simpl in Hfx; congruence.
Qed.

(** The four ways [fit] can end. *)
Lemma fit_cases self X :
  let W := window_size self in
  let S := step_size self in
  let N := n_samples X in
  1 <= W -> 1 <= S ->
  (check_array X <> Ok X /\ fit X self = (Raise ValueError, self)) \/
  (check_array X = Ok X /\ N < W /\
   fit X self = (Raise InvalidInputError, self)) \/
  (check_array X = Ok X /\ W <= N /\
   (fit X self = (Raise ValueError, windowed self N) \/
    fit X self = (Raise ValueError, with_gbr_ Unfitted (windowed self N)))) \/
  (check_array X = Ok X /\ W + S <= N /\
   fit X self = (Ok tt, trained self X)).
Proof.
  intros W S N HW HS. subst W S N.
  destruct (check_array X) as [X'|e] eqn:Hc.
  2:{ left. split; [discriminate |].
      rewrite (fit_invalid _ _ Hc). unfold check_array in Hc.
      destruct (_ && _); congruence. }
  destruct (check_array_ok _ Hc) as [-> _]. right.
  destruct (Z.lt_ge_cases (n_samples X) (window_size self)) as [Hlt | HN].
  { left. repeat split; try assumption. now apply fit_short. }
  right.
  destruct (Z.lt_ge_cases (n_samples X) (window_size self + step_size self))
    as [Hlt | HN'].
  { left. repeat split; try assumption. right.
    apply fit_no_window; try lia; assumption. }
  destruct (fst (fit X self)) as [[]|e] eqn:Hok.
  - right. repeat split; try assumption.
    now apply fit_ok_inv.
  - left. repeat split; try assumption. left.
    assert (Hn : (1 <= n_retained (n_samples X) (window_size self)
                         (step_size self))%nat)
      by (apply n_retained_pos; lia).
    rewrite fit_run in * by (try lia; assumption). cbv zeta in *.
    destruct (fill_targets _ _ _ _) as [y|e'] eqn:Hy.
    + apply fill_targets_ok_inv in Hy; try lia. subst y.
      rewrite estimator_fit_nonempty in Hok by now rewrite windows_of_length.
      rewrite estimator_predict_nonempty in Hok
        by now rewrite windows_of_length.
      erewrite process_decision_scores_run in Hok by reflexivity.
      discriminate.
    + apply fill_targets_raises in Hy; try lia. now subst e'.
Qed.

Lemma fit_no_index_error self X :
  1 <= window_size self -> 1 <= step_size self ->
  fst (fit X self) <> Raise IndexError.
Proof.
  intros HW HS.
  destruct (fit_cases self X HW HS)
    as [[_ ->] | [[_ [_ ->]] | [[_ [_ [-> | ->]]] | [_ [_ ->]]]]];
    discriminate.
Qed.

Lemma decision_function_no_index_error self X :
  1 <= window_size self -> 1 <= step_size self ->
  fst (decision_function X self) <> Raise IndexError.
Proof.
  intros HW HS.
  destruct (gbr_ self) as [est|] eqn:Hg.
  2:{ rewrite decision_function_unfitted by assumption. discriminate. }
  destruct (Z.lt_ge_cases (n_samples X) (window_size self)) as [Hlt | HN].
  { unfold decision_function, check_is_fitted, hasattr. run.
    cbn [forallb andb]. rewrite Hg. cbn [andb].
    rewrite get_sub_matrices_short by assumption. discriminate. }
  rewrite (@decision_function_run R self X est) by (try lia; assumption).
  cbv zeta. cbn [fst].
  destruct (fill_targets _ _ _ _) as [y|e] eqn:Hy.
  - destruct est as [|m]; simpl; [discriminate |].
    destruct (windows_of _ _ _ _); discriminate.
  - apply fill_targets_raises in Hy; try lia. subst e. discriminate.
Qed.

(** What [decision_function] returns when it returns. *)
Lemma decision_function_ok_inv self X (scores : list Q) (l r : list Z) :
  let W := window_size self in
  let S := step_size self in
  let n := n_retained (n_samples X) W S in
  1 <= W -> 1 <= S ->
  fst (decision_function X self) = Ok (scores, l, r) ->
  W <= n_samples X /\ l = lefts S n /\ r = rights W S n /\
  length scores = n /\
  exists m, gbr_ self = Some (Fitted m) /\
    scores = abs_diff (targets_of X W S n)
               (raw_predict R m (windows_of X W S n)).
Proof.
  intros W S n HW HS Hok. subst W S n.
  destruct (gbr_ self) as [est|] eqn:Hg.
  2:{ rewrite decision_function_unfitted in Hok by assumption. discriminate. }
  destruct (Z.lt_ge_cases (n_samples X) (window_size self)) as [Hlt | HN].
  { revert Hok. unfold decision_function, check_is_fitted, hasattr. run.
    cbn [forallb andb]. rewrite Hg. cbn [andb].
    rewrite get_sub_matrices_short by assumption. discriminate. }
  rewrite (@decision_function_run R self X est) in Hok
    by (try lia; assumption).
  cbv zeta in Hok. cbn [fst] in Hok.
  destruct (fill_targets _ _ _ _) as [y|e] eqn:Hy; [| discriminate].
  apply fill_targets_ok_inv in Hy; try lia. subst y.
  destruct est as [|m]; [discriminate |]. simpl in Hok.
  destruct (windows_of X (window_size self) (step_size self) _) eqn:Hw;
    [discriminate |].
  injection Hok as <- <- <-. rewrite <- Hw.
  repeat split; try assumption; try reflexivity.
  - rewrite abs_diff_length; [apply targets_of_length |].
    now rewrite raw_predict_length, targets_of_length, windows_of_length.
  - exists m. split; reflexivity.
Qed.

End Outcomes.

(** ** Windowing: count, boundaries, targets *)

(** C2.  For an input of [N >= W] rows the windowing stage yields
    [floor((N - W) / S) + 1] windows; [fit] stores the boundaries and the
    count of one window fewer, whatever happens later in the call, and
    [decision_function] returns arrays of one window fewer whenever it
    returns, which it does for a fitted regressor on a one-column input with
    a kept window.  On the 14 samples of the demonstration with [W = 3] and
    [S = 1]: 12 windows, 11 kept, left boundaries 0..10, right boundaries
    3..13. *)
Theorem window_count (R : Regressor) (self : GBRegOD R) (X : matrix) :
  let W := window_size self in
  let S := step_size self in
  let N := n_samples X in
  1 <= W -> 1 <= S -> W <= N ->
  (exists sub_matrices l r,
     get_sub_matrices X W S = Ok (sub_matrices, l, r) /\
     Z.of_nat (length sub_matrices) = (N - W) / S + 1 /\
     Z.of_nat (length l) = (N - W) / S + 1 /\
     Z.of_nat (length r) = (N - W) / S + 1 /\
     (check_array X = Ok X ->
      left_inds_ (snd (fit X self)) = Some (drop_last l) /\
      right_inds_ (snd (fit X self)) = Some (drop_last r) /\
      valid_len_ (snd (fit X self)) = Some (length (drop_last sub_matrices)) /\
      Z.of_nat (length (drop_last sub_matrices)) = (N - W) / S /\
      Z.of_nat (length (drop_last l)) = (N - W) / S /\
      Z.of_nat (length (drop_last r)) = (N - W) / S) /\
     (forall scores l' r',
        fst (decision_function X self) = Ok (scores, l', r') ->
        l' = drop_last l /\ r' = drop_last r /\
        Z.of_nat (length scores) = (N - W) / S /\
        Z.of_nat (length l') = (N - W) / S /\
        Z.of_nat (length r') = (N - W) / S) /\
     (forall m, gbr_ self = Some (Fitted m) -> univariate X = true ->
        W + S <= N ->
        exists scores,
          decision_function X self
          = (Ok (scores, drop_last l, drop_last r), self))) /\
  (W = 3 -> S = 1 -> X = X_train ->
   length X = 14%nat /\
   (exists sub_matrices l r,
      get_sub_matrices X W S = Ok (sub_matrices, l, r) /\
      length sub_matrices = 12%nat /\
      length (drop_last sub_matrices) = 11%nat) /\
   left_inds_ (snd (fit X self)) = Some [0; 1; 2; 3; 4; 5; 6; 7; 8; 9; 10] /\
   right_inds_ (snd (fit X self))
   = Some [3; 4; 5; 6; 7; 8; 9; 10; 11; 12; 13]).
Proof.
  intros W S N HW HS HN. subst W S N.
  set (W := window_size self) in *. set (S := step_size self) in *.
  assert (Hq : 0 <= (n_samples X - W) / S) by (apply Z.div_pos; lia).
  pose proof (@n_windows_retained (n_samples X) W S HN HS) as Hsucc.
  set (n := n_retained (n_samples X) W S) in *.
  assert (Hkept : Z.of_nat n = (n_samples X - W) / S)
    by (subst n; unfold n_retained; lia).
  assert (Hraw : Z.of_nat (Datatypes.S n) = (n_samples X - W) / S + 1) by lia.
  split.
  - exists (windows_of X W S (Datatypes.S n)), (lefts S (Datatypes.S n)),
      (rights W S (Datatypes.S n)).
    rewrite get_sub_matrices_ok by exact HN. cbv zeta. rewrite Hsucc.
    rewrite drop_last_windows_of, drop_last_lefts, drop_last_rights.
    rewrite !windows_of_length, !lefts_length, !rights_length.
    repeat split; try assumption.
    + destruct (fit_cases self X HW HS)
        as [[Hbad _] | [[_ [Hlt _]] | [[_ [_ [-> | ->]]] | [_ [_ ->]]]]];
        [congruence | fold W in Hlt; lia | reflexivity ..].
    + destruct (fit_cases self X HW HS)
        as [[Hbad _] | [[_ [Hlt _]] | [[_ [_ [-> | ->]]] | [_ [_ ->]]]]];
        [congruence | fold W in Hlt; lia | reflexivity ..].
    + destruct (fit_cases self X HW HS)
        as [[Hbad _] | [[_ [Hlt _]] | [[_ [_ [-> | ->]]] | [_ [_ ->]]]]];
        [congruence | fold W in Hlt; lia | reflexivity ..].
    + apply (decision_function_ok_inv self X HW HS H).
    + apply (decision_function_ok_inv self X HW HS H).
    + destruct (decision_function_ok_inv self X HW HS H)
        as [_ [_ [_ [Hlen _]]]]. fold W S in Hlen. lia.
    + destruct (decision_function_ok_inv self X HW HS H)
        as [_ [-> _]]. rewrite lefts_length. exact Hkept.
    + destruct (decision_function_ok_inv self X HW HS H)
        as [_ [_ [-> _]]]. rewrite rights_length. exact Hkept.
    + intros m Hg HX HN'. eexists.
      apply (@decision_function_univariate R self X m); assumption.
  - intros HW3 HS1 ->.
    assert (Hc : check_array X_train = Ok X_train) by reflexivity.
    split; [reflexivity |]. split.
    + rewrite HW3, HS1. do 3 eexists. split; [reflexivity |].
      split; reflexivity.
    + destruct (fit_cases self X_train HW HS)
        as [[Hbad _] | [[_ [Hlt _]] | [[_ [_ [-> | ->]]] | [_ [_ ->]]]]];
        [congruence | fold W in Hlt; rewrite HW3 in Hlt; discriminate | ..];
        cbn [snd windowed trained with_gbr_ left_inds_ right_inds_];
        fold W S; rewrite HW3, HS1; split; reflexivity.
Qed.

Lemma window_count_witness :
  let self := fresh persistence 3 1 (1 # 5) in
  1 <= window_size self /\ 1 <= step_size self /\
  window_size self <= n_samples X_train /\
  left_inds_ (snd (fit X_train self)) = Some [0; 1; 2; 3; 4; 5; 6; 7; 8; 9; 10].
Proof.
  intros self.
  assert (HW : 1 <= window_size self) by (vm_compute; discriminate).
  assert (HS : 1 <= step_size self) by (vm_compute; discriminate).
  assert (HN : window_size self <= n_samples X_train)
    by (vm_compute; discriminate).
  split; [exact HW | split; [exact HS | split; [exact HN |]]].
  exact (proj1 (proj2 (proj2
    (proj2 (@window_count persistence self X_train HW HS HN)
       eq_refl eq_refl eq_refl)))).
Defined.

(** C3.  For every kept window [i], at fit and at inference time, the
    target is the row of index [left_inds[i] + window_size], that is
    [i * step_size + window_size]; this index lies inside the input, so the
    target loop never raises IndexError, and neither method does.  On a
    one-column input the loop yields exactly these samples; they are what
    the regressor is trained on and what the scores are measured against. *)
Theorem target_is_next_sample (R : Regressor) (self : GBRegOD R) (X : matrix) :
  let W := window_size self in
  let S := step_size self in
  let N := n_samples X in
  let n := n_retained N W S in
  1 <= W -> 1 <= S -> W <= N ->
  (forall i, (i < n)%nat ->
     let k := nth i (lefts S n) 0 + W in
     k = Z.of_nat i * S + W /\ 0 <= k < N /\
     getitem X k = Ok (nth (Z.to_nat k) X [])) /\
  fill_targets X S W n <> Raise IndexError /\
  fst (fit X self) <> Raise IndexError /\
  fst (decision_function X self) <> Raise IndexError /\
  (univariate X = true ->
     fill_targets X S W n = Ok (targets_of X W S n) /\
     forall i, (i < n)%nat ->
       nth i (targets_of X W S n) 0%Q
       = sample X (nth i (lefts S n) 0 + W)) /\
  (fst (fit X self) = Ok tt ->
     fill_targets X S W n = Ok (targets_of X W S n) /\
     gbr_ (snd (fit X self))
     = Some (Fitted (train R (windows_of X W S n) (targets_of X W S n)))) /\
  (forall scores l r,
     fst (decision_function X self) = Ok (scores, l, r) ->
     fill_targets X S W n = Ok (targets_of X W S n) /\
     exists m, gbr_ self = Some (Fitted m) /\
       scores = abs_diff (targets_of X W S n)
                  (raw_predict R m (windows_of X W S n))).
Proof.
  intros W S N n HW HS HN. subst W S N n.
  set (W := window_size self) in *. set (S := step_size self) in *.
  set (n := n_retained (n_samples X) W S).
  assert (Hbound : forall i, (i < n)%nat ->
            0 <= Z.of_nat i * S + W < n_samples X)
    by (intros i Hi; apply retained_bound; assumption).
  split; [| split; [| split; [| split; [| split; [| split]]]]].
  - intros i Hi. cbv zeta. rewrite lefts_nth by exact Hi.
    repeat split; try apply Hbound; try assumption.
    apply getitem_in_bounds. apply Hbound, Hi.
  - apply fill_targets_in_bounds; try assumption. subst n. lia.
  - now apply fit_no_index_error.
  - now apply decision_function_no_index_error.
  - intros HX. split.
    + apply fill_targets_univariate; try assumption. subst n. lia.
    + intros i Hi. unfold targets_of.
      now rewrite (nth_map_lt _ _ 0) by now rewrite lefts_length.
  - intros Hok.
    destruct (fit_ok_inv self X HW HS Hok) as [Hc [HN' Hfit]].
    rewrite Hfit. split; [| reflexivity].
    destruct (fill_targets X S W n) as [y|e] eqn:Hy.
    + apply fill_targets_ok_inv in Hy; try assumption; [| subst n; lia].
      now subst y.
    + exfalso. revert Hok.
      rewrite fit_run by (try assumption; fold W; lia). cbv zeta.
      fold W S n. now rewrite Hy.
  - intros scores l r Hok.
    destruct (decision_function_ok_inv self X HW HS Hok)
      as [_ [_ [_ [_ [m [Hg Hsc]]]]]].
    split; [| exists m; now split].
    destruct (fill_targets X S W n) as [y|e] eqn:Hy.
    + apply fill_targets_ok_inv in Hy; try assumption; [| subst n; lia].
      now subst y.
    + exfalso. revert Hok.
      rewrite (@decision_function_run R self X (Fitted m))
        by (try assumption; fold W; lia).
      cbv zeta. fold W S n. now rewrite Hy.
Qed.

Lemma target_is_next_sample_witness :
  let self := fresh persistence 3 1 (1 # 5) in
  1 <= window_size self /\ 1 <= step_size self /\
  window_size self <= n_samples X_train /\
  fill_targets X_train 1 3 11
  = Ok [16; 18; 13; 22; 36; 59; 128; 62; 67; 78; 100]%Q.
Proof.
  intros self.
  assert (HW : 1 <= window_size self) by (vm_compute; discriminate).
  assert (HS : 1 <= step_size self) by (vm_compute; discriminate).
  assert (HN : window_size self <= n_samples X_train)
    by (vm_compute; discriminate).
  split; [exact HW | split; [exact HS | split; [exact HN |]]].
  exact (proj1 (proj1 (proj2 (proj2 (proj2 (proj2
    (@target_is_next_sample persistence self X_train HW HS HN))))) eq_refl)).
Defined.

(** C9.  For every kept window [i], [left_inds[i] = i * step_size] and
    [right_inds[i] = left_inds[i] + window_size]: in the boundaries [fit]
    stores and in those [decision_function] returns. *)
Theorem window_boundaries (R : Regressor) (self : GBRegOD R) (X : matrix) :
  let W := window_size self in
  let S := step_size self in
  let n := n_retained (n_samples X) W S in
  1 <= W -> 1 <= S -> W <= n_samples X ->
  (check_array X = Ok X ->
   exists l r,
     left_inds_ (snd (fit X self)) = Some l /\
     right_inds_ (snd (fit X self)) = Some r /\
     length l = n /\ length r = n /\
     forall i, (i < n)%nat ->
       nth i l 0 = Z.of_nat i * S /\ nth i r 0 = nth i l 0 + W) /\
  (forall scores l r,
     fst (decision_function X self) = Ok (scores, l, r) ->
     length l = n /\ length r = n /\
     forall i, (i < n)%nat ->
       nth i l 0 = Z.of_nat i * S /\ nth i r 0 = nth i l 0 + W) /\
  (forall m, gbr_ self = Some (Fitted m) -> univariate X = true ->
     W + S <= n_samples X ->
     exists scores l r,
       fst (decision_function X self) = Ok (scores, l, r) /\ (1 <= n)%nat).
Proof.
  intros W S n HW HS HN. subst W S n.
  set (W := window_size self) in *. set (S := step_size self) in *.
  set (n := n_retained (n_samples X) W S).
  assert (Hspec : length (lefts S n) = n /\ length (rights W S n) = n /\
            forall i, (i < n)%nat ->
              nth i (lefts S n) 0 = Z.of_nat i * S /\
              nth i (rights W S n) 0 = nth i (lefts S n) 0 + W).
  { rewrite lefts_length, rights_length. repeat split.
    - now apply lefts_nth.
    - now apply rights_nth. }
  split; [| split].
  - intros Hc. exists (lefts S n), (rights W S n).
    destruct (fit_cases self X HW HS)
      as [[Hbad _] | [[_ [Hlt _]] | [[_ [_ [-> | ->]]] | [_ [_ ->]]]]];
      [congruence | fold W in Hlt; lia | ..];
      (split; [reflexivity | split; [reflexivity | exact Hspec]]).
  - intros scores l r Hok.
    destruct (decision_function_ok_inv self X HW HS Hok)
      as [_ [-> [-> _]]]. exact Hspec.
  - intros m Hg HX HN'. do 3 eexists.
    rewrite (@decision_function_univariate R self X m) by assumption.
    split; [reflexivity |]. apply n_retained_pos; assumption.
Qed.

Lemma window_boundaries_witness :
  let self := fresh persistence 3 2 (1 # 5) in
  1 <= window_size self /\ 1 <= step_size self /\
  window_size self <= n_samples X_train /\
  exists l r,
    left_inds_ (snd (fit X_train self)) = Some l /\
    right_inds_ (snd (fit X_train self)) = Some r /\
    length l = 5%nat /\ length r = 5%nat /\
    forall i, (i < 5)%nat ->
      nth i l 0 = Z.of_nat i * 2 /\ nth i r 0 = nth i l 0 + 3.
Proof.
  intros self.
  assert (HW : 1 <= window_size self) by (vm_compute; discriminate).
  assert (HS : 1 <= step_size self) by (vm_compute; discriminate).
  assert (HN : window_size self <= n_samples X_train)
    by (vm_compute; discriminate).
  split; [exact HW | split; [exact HS | split; [exact HN |]]].
  exact (proj1 (@window_boundaries persistence self X_train HW HS HN) eq_refl).
Defined.

(** ** Prediction *)

(** C1.  On a fitted detector and a one-column input with at least one kept
    window, [predict] returns the result of [decision_function] with
    [window_size] zero entries in front of the scores and of both index
    arrays; the padded scores are labelled 0; each returned array has
    [window_size + floor((N - window_size) / step_size)] entries.  That is
    the number of rows [N] when [step_size = 1] and fewer than [N] for any
    larger step. *)
Theorem predict_padding (R : Regressor) (self0 : GBRegOD R) (Xtr X : matrix) :
  let W := window_size self0 in
  let S := step_size self0 in
  let N := n_samples X in
  let w := Z.to_nat W in
  let self := snd (fit Xtr self0) in
  1 <= W -> 1 <= S -> fst (fit Xtr self0) = Ok tt ->
  univariate X = true -> W + S <= N ->
  exists scores l r t labels,
    decision_function X self = (Ok (scores, l, r), self) /\
    threshold_ self = Some t /\
    predict X self = (Ok (labels, repeat 0 w ++ l, repeat 0 w ++ r), self) /\
    labels = binarize t (repeat 0%Q w ++ scores) /\
    labels = repeat 0 w ++ binarize t scores /\
    firstn w labels = repeat 0 w /\
    Z.of_nat (length labels) = W + (N - W) / S /\
    Z.of_nat (length (repeat 0 w ++ l)) = W + (N - W) / S /\
    Z.of_nat (length (repeat 0 w ++ r)) = W + (N - W) / S /\
    (S = 1 -> Z.of_nat (length labels) = N) /\
    (2 <= S -> Z.of_nat (length labels) < N).
Proof.
  intros W S N w self HW HS Hok HX HN. subst self.
  destruct (fit_ok_inv self0 Xtr HW HS Hok) as [_ [_ Hfit]].
  rewrite Hfit. cbn [snd]. subst W S N w.
  set (self := trained self0 Xtr).
  set (W := window_size self0) in *. set (S := step_size self0) in *.
  set (n := n_retained (n_samples X) W S).
  set (w := Z.to_nat W).
  assert (Hkept : Z.of_nat n = (n_samples X - W) / S).
  { assert (0 <= (n_samples X - W) / S) by (apply Z.div_pos; lia).
    subst n. unfold n_retained. lia. }
  destruct (gbr_ self) as [[|m]|] eqn:Hg; try discriminate.
  destruct (threshold_ self) as [t|] eqn:Ht; try discriminate.
  assert (Hdf : decision_function X self
                = (Ok (abs_diff (targets_of X W S n)
                         (raw_predict R m (windows_of X W S n)),
                       lefts S n, rights W S n), self))
    by (apply (@decision_function_univariate R self X m); assumption).
  set (scores := abs_diff (targets_of X W S n)
                   (raw_predict R m (windows_of X W S n))) in *.
  assert (Hlen : length scores = n).
  { subst scores. rewrite abs_diff_length; [apply targets_of_length |].
    now rewrite raw_predict_length, targets_of_length, windows_of_length. }
  assert (Ht0 : (0 <= t)%Q).
  { injection Ht as <-. apply quantile_threshold_nonneg, abs_diff_nonneg. }
  assert (Hpad : binarize t (repeat 0%Q w ++ scores)
                 = repeat 0 w ++ binarize t scores)
    by (apply binarize_pad; exact Ht0).
  assert (Hlabels : Z.of_nat (length (binarize t (repeat 0%Q w ++ scores)))
                    = W + (n_samples X - W) / S).
  { rewrite Hpad, length_app, repeat_length, binarize_length, Hlen.
    subst w. lia. }
  exists scores, (lefts S n), (rights W S n), t,
    (binarize t (repeat 0%Q w ++ scores)).
  repeat split; try assumption; try reflexivity.
  - erewrite predict_run;
      [| reflexivity | exact Ht | reflexivity
       | change (window_size self) with W; lia].
    rewrite Hdf. cbn [fst]. reflexivity.
  - rewrite Hpad, firstn_app, repeat_length, firstn_all2
      by (rewrite repeat_length; lia).
    replace (w - w)%nat with O by lia. simpl. apply app_nil_r.
  - rewrite length_app, repeat_length, lefts_length. subst w. lia.
  - rewrite length_app, repeat_length, rights_length. subst w. lia.
  - intros HS1. rewrite Hlabels, HS1, Z.div_1_r. lia.
  - intros HS2. rewrite Hlabels.
    assert ((n_samples X - W) / S < n_samples X - W)
      by (apply Z.div_lt; lia).
    lia.
Qed.

Lemma predict_padding_witness :
  let self0 := fresh persistence 3 2 (1 # 5) in
  let self := snd (fit X_train self0) in
  1 <= window_size self0 /\ 1 <= step_size self0 /\
  fst (fit X_train self0) = Ok tt /\ univariate X_train = true /\
  window_size self0 + step_size self0 <= n_samples X_train /\
  n_samples X_train = 14 /\
  exists labels l r,
    predict X_train self = (Ok (labels, l, r), self) /\
    Z.of_nat (length labels) = 8 /\ Z.of_nat (length l) = 8 /\
    Z.of_nat (length r) = 8.
Proof.
  intros self0 self.
  assert (HW : 1 <= window_size self0) by (vm_compute; discriminate).
  assert (HS : 1 <= step_size self0) by (vm_compute; discriminate).
  assert (Hok : fst (fit X_train self0) = Ok tt) by (vm_compute; reflexivity).
  assert (HX : univariate X_train = true) by (vm_compute; reflexivity).
  assert (HN : window_size self0 + step_size self0 <= n_samples X_train)
    by (vm_compute; discriminate).
  split; [exact HW | split; [exact HS | split; [exact Hok |
    split; [exact HX | split; [exact HN | split; [reflexivity |]]]]]].
  destruct (@predict_padding persistence self0 X_train X_train
              HW HS Hok HX HN)
    as [scores [l [r [t [labels [_ [_ [Hp [_ [_ [_ [H1 [H2 [H3 _]]]]]]]]]]]]]].
  exists labels, (repeat 0 (Z.to_nat (window_size self0)) ++ l),
    (repeat 0 (Z.to_nat (window_size self0)) ++ r).
  split; [exact Hp | split; [exact H1 | split; [exact H2 | exact H3]]].
Defined.

(** ** Threshold and labels *)

(** C4, as stated, fails on tied scores.  Fitting the constant series with
    [window_size = 3] and contamination 1/5 gives five scores, all zero:
    [floor(5 * 1/5) = 1] score should lie above the threshold, none does,
    and no threshold at all leaves exactly one of five equal scores above
    it. *)
Lemma threshold_count_tied :
  let self := snd (fit X_flat (fresh persistence 3 1 (1 # 5))) in
  fst (fit X_flat (fresh persistence 3 1 (1 # 5))) = Ok tt /\
  exists scores t,
    decision_scores_ self = Some scores /\ threshold_ self = Some t /\
    length scores = 5%nat /\ n_outliers scores (1 # 5) = 1%nat /\
    count_above t scores = 0%nat /\
    count_above t scores <> n_outliers scores (1 # 5) /\
    forall t', count_above t' scores <> 1%nat.
Proof.
  split; [vm_compute; reflexivity |].
  eexists. eexists.
  split; [vm_compute; reflexivity |].
  split; [vm_compute; reflexivity |].
  split; [reflexivity |]. split; [vm_compute; reflexivity |].
  split; [vm_compute; reflexivity |].
  split; [vm_compute; discriminate |].
  intros t'. unfold count_above. cbn [filter].
  destruct (gtb _ t'); cbn [length]; discriminate.
Qed.

(** C4, amended.  After a successful [fit] of a constructed detector,
    [threshold_] is the (1 - c) quantile of [decision_scores_] taken on the
    fully sorted scores; at most [floor(len(S) * c)] scores lie strictly
    above it, and exactly that many when no other score equals the
    threshold; [labels_[i]] is 1 exactly when
    [decision_scores_[i] > threshold_], so a score equal to [threshold_] is
    labelled 0. *)
Theorem threshold_and_labels (R : Regressor) (W S : Z) (c : Q)
  (self0 : GBRegOD R) (X : matrix) :
  let self := snd (fit X self0) in
  GBRegOD_init R W S c = Ok self0 -> 1 <= W -> 1 <= S ->
  fst (fit X self0) = Ok tt ->
  exists scores t labels,
    decision_scores_ self = Some scores /\
    threshold_ self = Some t /\
    labels_ self = Some labels /\
    t = quantile_threshold scores c /\
    t = nth (length scores - 1 - n_outliers scores c) (sort scores) 0%Q /\
    Z.of_nat (n_outliers scores c)
    = Qfloor (inject_Z (Z.of_nat (length scores)) * c) /\
    (count_above t scores <= n_outliers scores c)%nat /\
    (count_ties t scores = 1%nat ->
     count_above t scores = n_outliers scores c) /\
    length labels = length scores /\
    forall i, (i < length scores)%nat ->
      (nth i labels 0 = 1 <-> (t < nth i scores 0%Q)%Q) /\
      (nth i labels 0 = 0 <-> (nth i scores 0%Q <= t)%Q) /\
      ((nth i scores 0%Q == t)%Q -> nth i labels 0 = 0).
Proof.
  intros self Hinit HW HS Hok. subst self.
  assert (Hself : self0 = fresh R W S c /\ valid_contamination c = true).
  { unfold GBRegOD_init, CollectiveBaseDetector_init in Hinit.
    destruct (valid_contamination c); simpl in Hinit; [| discriminate].
    injection Hinit as <-. now split. }
  destruct Hself as [-> Hc].
  destruct (@fit_ok_inv R (fresh R W S c) X HW HS Hok) as [_ [HN Hfit]].
  rewrite Hfit. cbn [snd trained decision_scores_ threshold_ labels_].
  cbn [fresh window_size step_size contamination] in *.
  set (n := n_retained (n_samples X) W S).
  set (scores := abs_diff (targets_of X W S n)
                   (raw_predict R
                      (train R (windows_of X W S n) (targets_of X W S n))
                      (windows_of X W S n))).
  set (t := quantile_threshold scores c).
  assert (Hn : (1 <= n)%nat) by (apply n_retained_pos; assumption).
  assert (Hlen : length scores = n).
  { subst scores. rewrite abs_diff_length; [apply targets_of_length |].
    now rewrite raw_predict_length, targets_of_length, windows_of_length. }
  assert (Hne : scores <> []) by (destruct scores; simpl in Hlen; [lia | discriminate]).
  exists scores, t, (binarize t scores).
  split; [reflexivity |]. split; [reflexivity |]. split; [reflexivity |].
  split; [reflexivity |]. split; [reflexivity |].
  split.
  { unfold n_outliers. apply Z2Nat.id.
    rewrite <- (Qfloor_Z 0). apply Qfloor_resp_le.
    apply valid_contamination_range in Hc. destruct Hc as [Hc0 _].
    apply Qmult_le_0_compat; [| now apply Qlt_le_weak].
    change 0%Q with (inject_Z 0). rewrite <- Zle_Qle. lia. }
  split; [now apply threshold_count_le |].
  split; [now apply threshold_count_eq |].
  split; [apply binarize_length |].
  intros i Hi. unfold binarize.
  rewrite (nth_map_lt _ _ 0%Q) by exact Hi.
  destruct (gtb (nth i scores 0%Q) t) eqn:Hgt.
  - pose proof (proj1 (gtb_true _ _) Hgt) as Hlt.
    repeat split; try discriminate; try tauto.
    + intros Hle. exfalso. exact (Qlt_not_le _ _ Hlt Hle).
    + intros Heq. exfalso. rewrite Heq in Hlt. exact (Qlt_irrefl _ Hlt).
  - pose proof (proj1 (gtb_false _ _) Hgt) as Hle.
    repeat split; try discriminate; try tauto.
    intros Hlt. exfalso. exact (Qlt_not_le _ _ Hlt Hle).
Qed.

Lemma threshold_and_labels_witness :
  let self0 := fresh persistence 3 1 (1 # 5) in
  let self := snd (fit X_train self0) in
  GBRegOD_init persistence 3 1 (1 # 5) = Ok self0 /\ 1 <= 3 /\ 1 <= 1 /\
  fst (fit X_train self0) = Ok tt /\
  exists scores t,
    decision_scores_ self = Some scores /\ threshold_ self = Some t /\
    (count_above t scores <= n_outliers scores (1 # 5))%nat.
Proof.
  intros self0 self.
  assert (Hinit : GBRegOD_init persistence 3 1 (1 # 5) = Ok self0)
    by (vm_compute; reflexivity).
  assert (HW : 1 <= 3) by (vm_compute; discriminate).
  assert (HS : 1 <= 1) by (vm_compute; discriminate).
  assert (Hok : fst (fit X_train self0) = Ok tt) by (vm_compute; reflexivity).
  split; [exact Hinit | split; [exact HW | split; [exact HS |
    split; [exact Hok |]]]].
  destruct (@threshold_and_labels persistence 3 1 (1 # 5) self0 X_train
              Hinit HW HS Hok)
    as [scores [t [labels [Hs [Ht [_ [_ [_ [_ [Hle _]]]]]]]]]].
  exists scores, t. split; [exact Hs | split; [exact Ht | exact Hle]].
Defined.

(** ** Failure of [fit] *)

(** C5, as stated, fails.  On a two-column input of five rows with
    [window_size = 3], [fit] raises in the target loop after it has stored
    the boundaries and the count of the two kept windows: the instance is
    no longer in its state before the call. *)
Lemma fit_not_atomic :
  let self := fresh persistence 3 1 (1 # 5) in
  let after := snd (fit X_two_columns self) in
  check_array X_two_columns = Ok X_two_columns /\
  fst (fit X_two_columns self) = Raise ValueError /\
  left_inds_ self = None /\ left_inds_ after = Some [0; 1] /\
  right_inds_ self = None /\ right_inds_ after = Some [3; 4] /\
  valid_len_ self = None /\ valid_len_ after = Some 2%nat /\
  after <> self /\
  ~ fit_is_atomic persistence.
Proof.
  intros self after.
  assert (Hne : after <> self).
  { intros Heq. apply (f_equal (@left_inds_ persistence)) in Heq.
    vm_compute in Heq. discriminate. }
  repeat (split; [vm_compute; reflexivity |]).
  split; [exact Hne |].
  intros Hatomic.
  destruct (Hatomic self X_two_columns) as [[Hok _] | [e He]].
  - vm_compute in Hok. discriminate.
  - apply Hne. unfold after. now rewrite He.
Qed.

(** C5, amended.  [fit] either returns with every fitted attribute
    populated, or raises.  A raise during input validation or windowing
    leaves the instance unchanged.  A later raise leaves [left_inds_],
    [right_inds_] and [valid_len_] assigned for the kept windows, and
    [gbr_] either untouched or bound to an unfitted regressor, while
    [decision_scores_], [threshold_] and [labels_] and the three
    constructor parameters are as before the call. *)
Theorem fit_outcomes (R : Regressor) (self : GBRegOD R) (X : matrix) :
  let W := window_size self in
  let S := step_size self in
  let n := n_retained (n_samples X) W S in
  let after := snd (fit X self) in
  1 <= W -> 1 <= S ->
  (fst (fit X self) = Ok tt /\ populated after = true /\
   after = trained self X) \/
  (exists e, fst (fit X self) = Raise e /\
     decision_scores_ after = decision_scores_ self /\
     threshold_ after = threshold_ self /\
     labels_ after = labels_ self /\
     contamination after = contamination self /\
     window_size after = W /\ step_size after = S /\
     (check_array X <> Ok X \/ n_samples X < W -> after = self) /\
     (check_array X = Ok X -> W <= n_samples X ->
        left_inds_ after = Some (lefts S n) /\
        right_inds_ after = Some (rights W S n) /\
        valid_len_ after = Some n /\
        (gbr_ after = gbr_ self \/ gbr_ after = Some Unfitted))).
Proof.
  intros W S n after HW HS. subst W S n after.
  destruct (fit_cases self X HW HS)
    as [[Hbad ->] | [[Hc [Hlt ->]] | [[Hc [HN [-> | ->]]] | [_ [_ ->]]]]];
    cbn [fst snd].
  - right. exists ValueError.
    split; [reflexivity |]. do 6 (split; [reflexivity |]).
    split; [reflexivity |]. intros Hc. congruence.
  - right. exists InvalidInputError.
    split; [reflexivity |]. do 6 (split; [reflexivity |]).
    split; [reflexivity |]. intros _ HN. lia.
  - right. exists ValueError.
    split; [reflexivity |]. do 6 (split; [reflexivity |]).
    split; [intros [Hbad | Hlt]; [congruence | lia] |].
    intros _ _. do 3 (split; [reflexivity |]). now left.
  - right. exists ValueError.
    split; [reflexivity |]. do 6 (split; [reflexivity |]).
    split; [intros [Hbad | Hlt]; [congruence | lia] |].
    intros _ _. do 3 (split; [reflexivity |]). now right.
  - left. split; [reflexivity |]. split; reflexivity.
Qed.

Lemma fit_outcomes_witness :
  let self := fresh persistence 3 1 (1 # 5) in
  let after := snd (fit X_two_columns self) in
  1 <= window_size self /\ 1 <= step_size self /\
  left_inds_ after = Some (lefts 1 2) /\
  decision_scores_ after = decision_scores_ self.
Proof.
  intros self after.
  assert (HW : 1 <= window_size self) by (vm_compute; discriminate).
  assert (HS : 1 <= step_size self) by (vm_compute; discriminate).
  split; [exact HW | split; [exact HS |]].
  destruct (@fit_outcomes persistence self X_two_columns HW HS)
    as [[Hok _] | [e [_ [Hscores [_ [_ [_ [_ [_ [_ Hstored]]]]]]]]]].
  - vm_compute in Hok. discriminate.
  - split; [| exact Hscores].
    apply (Hstored eq_refl). vm_compute. discriminate.
Defined.

(** ** Calls before a successful [fit] *)

(** C6.  On a freshly constructed detector both [predict] and
    [decision_function] raise NotFittedError, for every input.  After a
    [fit] that failed inside the regressor (three samples, no kept window)
    the estimator object is already stored: [predict] still raises
    NotFittedError, but [decision_function] passes its check and raises
    ValueError on a two-column input. *)
Theorem not_fitted_checks (R : Regressor) :
  let self0 := fresh R 3 1 (1 # 5) in
  let self := snd (fit X_three self0) in
  GBRegOD_init R 3 1 (1 # 5) = Ok self0 /\
  (forall X, fst (decision_function X self0) = Raise NotFittedError) /\
  (forall X, fst (predict X self0) = Raise NotFittedError) /\
  fst (fit X_three self0) = Raise ValueError /\
  gbr_ self = Some Unfitted /\
  decision_scores_ self = None /\ threshold_ self = None /\
  labels_ self = None /\
  (forall X, fst (predict X self) = Raise NotFittedError) /\
  fst (decision_function X_two_columns self) = Raise ValueError /\
  fst (decision_function X_two_columns self) <> Raise NotFittedError.
Proof.
  intros self0 self.
  split; [reflexivity |].
  split; [intros X; now rewrite decision_function_unfitted |].
  split; [intros X; rewrite predict_unfitted; [reflexivity | now left] |].
  split; [reflexivity |]. split; [reflexivity |].
  split; [reflexivity |]. split; [reflexivity |]. split; [reflexivity |].
  split; [intros X; rewrite predict_unfitted; [reflexivity | now left] |].
  split; [reflexivity | discriminate].
Qed.

(** ** Construction *)

(** C7, as stated, fails.  A detector with [window_size = 0] and
    [step_size = 0] is constructed without error. *)
Lemma init_accepts_small_sizes :
  GBRegOD_init persistence 0 0 (1 # 10) = Ok (fresh persistence 0 0 (1 # 10)) /\
  GBRegOD_init persistence 0 1 (1 # 10) = Ok (fresh persistence 0 1 (1 # 10)) /\
  GBRegOD_init persistence 3 0 (1 # 10) = Ok (fresh persistence 3 0 (1 # 10)) /\
  GBRegOD_init persistence 0 0 (1 # 10) <> Raise ValueError.
Proof. repeat split; try reflexivity. discriminate. Qed.

(** C7, amended.  The constructor raises a ValueError exactly when the
    contamination lies outside the open interval (0, 0.5); otherwise it
    returns the instance with the window size and the step size stored as
    given, whatever their values.  A contamination of 0.6 raises. *)
Theorem init_checks_contamination (R : Regressor) (W S : Z) (c : Q) :
  (GBRegOD_init R W S c = Ok (fresh R W S c) <-> (0 < c /\ c < 1 # 2)%Q) /\
  (GBRegOD_init R W S c = Raise ValueError <-> ~ (0 < c /\ c < 1 # 2)%Q) /\
  GBRegOD_init R W S (6 # 10) = Raise ValueError.
Proof.
  unfold GBRegOD_init, CollectiveBaseDetector_init.
  pose proof (valid_contamination_range c) as Hrange.
  destruct (valid_contamination c); cbn [rbind].
  - split; [| split].
    + split; [intros _; now apply Hrange | reflexivity].
    + split; [discriminate |].
      intros Hbad. exfalso. apply Hbad. now apply Hrange.
    + reflexivity.
  - split; [| split].
    + split; [discriminate |].
      intros Hc. apply Hrange in Hc. discriminate.
    + split; [| reflexivity].
      intros _ Hc. apply Hrange in Hc. discriminate.
    + reflexivity.
Qed.

(** ** Inference leaves the detector alone *)

(** C8.  [decision_function] leaves every attribute of the instance as it
    found it, so a second call with the same input returns the same scores
    and index arrays, and leaves the instance unchanged again. *)
Theorem decision_function_reads_only (R : Regressor) (self : GBRegOD R)
  (X : matrix) :
  snd (decision_function X self) = self /\
  gbr_ (snd (decision_function X self)) = gbr_ self /\
  decision_scores_ (snd (decision_function X self)) = decision_scores_ self /\
  threshold_ (snd (decision_function X self)) = threshold_ self /\
  labels_ (snd (decision_function X self)) = labels_ self /\
  left_inds_ (snd (decision_function X self)) = left_inds_ self /\
  right_inds_ (snd (decision_function X self)) = right_inds_ self /\
  decision_function X (snd (decision_function X self))
  = decision_function X self.
Proof.
  rewrite decision_function_frame. repeat split; reflexivity.
Qed.

(** ** More than one column *)

(** C10.  On a well-formed input with two or more columns and at least one
    kept window, [fit] raises a ValueError in the target loop, leaving no
    regressor and no scores behind; with two or more columns [fit] never
    returns, and [decision_function] raises the same error whenever the
    instance holds an estimator. *)
Theorem fit_rejects_multivariate (R : Regressor) (self : GBRegOD R)
  (X : matrix) :
  let W := window_size self in
  let S := step_size self in
  1 <= W -> 1 <= S -> check_array X = Ok X -> (2 <= n_features X)%nat ->
  (W + S <= n_samples X ->
     fst (fit X self) = Raise ValueError /\
     gbr_ (snd (fit X self)) = gbr_ self /\
     decision_scores_ (snd (fit X self)) = decision_scores_ self /\
     fill_targets X S W (n_retained (n_samples X) W S) = Raise ValueError /\
     forall est, gbr_ self = Some est ->
       fst (decision_function X self) = Raise ValueError) /\
  fst (fit X self) <> Ok tt.
Proof.
  intros W S HW HS Hc HF. subst W S.
  destruct (check_array_ok _ Hc) as [_ [_ [_ Hrows]]].
  assert (Hloop : window_size self + step_size self <= n_samples X ->
            fill_targets X (step_size self) (window_size self)
              (n_retained (n_samples X) (window_size self) (step_size self))
            = Raise ValueError).
  { intros HN. apply fill_targets_multivariate; try assumption; try lia.
    split; [apply n_retained_pos; assumption | lia]. }
  split.
  - intros HN. rewrite fit_multivariate by assumption. cbn [fst snd].
    do 3 (split; [reflexivity |]). split; [now apply Hloop |].
    intros est Hg.
    rewrite (@decision_function_run R self X est) by (try lia; assumption).
    cbv zeta. now rewrite Hloop.
  - intros Hok.
    destruct (fit_ok_inv self X HW HS Hok) as [_ [HN Hfit]].
    rewrite fit_multivariate in Hfit by assumption. discriminate.
Qed.

Lemma fit_rejects_multivariate_witness :
  let self := fresh persistence 3 1 (1 # 5) in
  1 <= window_size self /\ 1 <= step_size self /\
  check_array X_two_columns = Ok X_two_columns /\
  (2 <= n_features X_two_columns)%nat /\
  window_size self + step_size self <= n_samples X_two_columns /\
  fst (fit X_two_columns self) = Raise ValueError.
Proof.
  intros self.
  assert (HW : 1 <= window_size self) by (vm_compute; discriminate).
  assert (HS : 1 <= step_size self) by (vm_compute; discriminate).
  assert (Hc : check_array X_two_columns = Ok X_two_columns)
    by (vm_compute; reflexivity).
  assert (HF : (2 <= n_features X_two_columns)%nat) by (vm_compute; lia).
  assert (HN : window_size self + step_size self <= n_samples X_two_columns)
    by (vm_compute; discriminate).
  split; [exact HW | split; [exact HS | split; [exact Hc |
    split; [exact HF | split; [exact HN |]]]]].
  exact (proj1 (proj1 (@fit_rejects_multivariate persistence self
                         X_two_columns HW HS Hc HF) HN)).
Defined.

(** * Further properties of the detector *)

(** ** What the results of inference depend on *)

Section Dependence.

Context (R : Regressor).
Implicit Types (self : GBRegOD R) (X : matrix).

(** [predict] assigns to no attribute either. *)
Lemma predict_frame self X : snd (predict X self) = self.
Proof.
  unfold predict, check_is_fitted. run.
  destruct (forallb _ _); [| reflexivity].
  pose proof (decision_function_frame self X) as Hframe.
  destruct (decision_function X self) as [[[[sc l] r]|e] self'];
    simpl in Hframe; subst self'; [| reflexivity].
  unfold zeros. destruct (window_size self <? 0); [reflexivity |].
  destruct (threshold_ self); reflexivity.
Qed.

(** The outcome of [decision_function] is a function of the window size,
    the step size and the estimator. *)
Lemma decision_function_depends self self' X :
  window_size self' = window_size self ->
  step_size self' = step_size self ->
  gbr_ self' = gbr_ self ->
  fst (decision_function X self') = fst (decision_function X self).
Proof.
  intros HW HS Hg. unfold decision_function, check_is_fitted, hasattr. run.
  cbn [forallb andb]. rewrite Hg.
  destruct (gbr_ self) as [est|] eqn:Hself; cbn [andb]; [| reflexivity].
  rewrite HW, HS.
  destruct (get_sub_matrices _ _ _) as [[[subs l] r]|e]; [| reflexivity].
  rewrite HW, HS, Hg, Hself.
  destruct (fill_targets _ _ _ _) as [y|e]; [| reflexivity].
  destruct (estimator_predict _ _) as [p|e]; reflexivity.
Qed.

(** What [predict] returns when it returns. *)
Lemma predict_ok_inv self X (labels l r : list Z) :
  fst (predict X self) = Ok (labels, l, r) ->
  0 <= window_size self /\
  exists scores l0 r0 t,
    fst (decision_function X self) = Ok (scores, l0, r0) /\
    threshold_ self = Some t /\
    hasattr (@decision_scores_ R) self = true /\
    hasattr (@labels_ R) self = true /\
    let w := Z.to_nat (window_size self) in
    labels = binarize t (repeat 0%Q w ++ scores) /\
    l = repeat 0 w ++ l0 /\ r = repeat 0 w ++ r0.
Proof.
  unfold predict, check_is_fitted. run. cbn [forallb].
  destruct (hasattr (@decision_scores_ R) self) eqn:Hs; cbn [andb];
    [| discriminate].
  destruct (hasattr (@threshold_ R) self) eqn:Ht; cbn [andb];
    [| discriminate].
  destruct (hasattr (@labels_ R) self) eqn:Hl; cbn [andb]; [| discriminate].
  pose proof (decision_function_frame self X) as Hframe.
  destruct (decision_function X self) as [[[[sc l0] r0]|e] self'];
    simpl in Hframe; subst self'; [| discriminate].
  unfold zeros. destruct (Z.ltb_spec (window_size self) 0); [discriminate |].
  destruct (threshold_ self) as [t|] eqn:Et; [| discriminate].
  cbn [fst]. intros Heq. injection Heq as <- <- <-.
  split; [lia |]. exists sc, l0, r0, t.
  repeat split; reflexivity.
Qed.

End Dependence.

(** X1.  [predict] leaves every attribute of the instance as it found it,
    whether it returns or raises, so a second call with the same input gives
    the same outcome. *)
Theorem predict_reads_only (R : Regressor) (self : GBRegOD R) (X : matrix) :
  snd (predict X self) = self /\
  predict X (snd (predict X self)) = predict X self /\
  decision_function X (snd (predict X self)) = decision_function X self.
Proof.
  rewrite predict_frame. repeat split; reflexivity.
Qed.

(** ** Scores *)

Section Scores.

Context (R : Regressor).
Implicit Types (self : GBRegOD R) (X : matrix).

Lemma decision_function_scores self X (scores : list Q) (l r : list Z) :
  fst (decision_function X self) = Ok (scores, l, r) ->
  exists y p, scores = abs_diff y p.
Proof.
  unfold decision_function, check_is_fitted. run.
  destruct (forallb _ _); [| discriminate].
  destruct (get_sub_matrices _ _ _) as [[[subs l0] r0]|e]; [| discriminate].
  destruct (fill_targets _ _ _ _) as [y|e]; [| discriminate].
  destruct (gbr_ self) as [est|]; [| discriminate].
  destruct (estimator_predict _ _) as [p|e]; [| discriminate].
  cbn [fst]. intros Heq. injection Heq as <- _ _. now exists y, p.
Qed.

Lemma fit_scores self X :
  fst (fit X self) = Ok tt ->
  exists y p, decision_scores_ (snd (fit X self)) = Some (abs_diff y p).
Proof.
  unfold fit. run.
  destruct (check_array X) as [X'|e]; [| discriminate].
  destruct (get_sub_matrices _ _ _) as [[[subs l0] r0]|e]; [| discriminate].
  attrs.
  destruct (fill_targets _ _ _ _) as [y|e]; [| discriminate].
  destruct (estimator_fit _ _ _) as [est|e]; [| discriminate].
  destruct (estimator_predict _ _) as [p|e]; [| discriminate].
  erewrite process_decision_scores_run by reflexivity.
  intros _. now exists y, p.
Qed.

End Scores.

(** X2.  Every anomaly score is non-negative: those [decision_function]
    returns and those [fit] stores in [decision_scores_]. *)
Theorem scores_nonnegative (R : Regressor) (self : GBRegOD R) (X : matrix) :
  (forall scores l r,
     fst (decision_function X self) = Ok (scores, l, r) ->
     Forall (fun s => (0 <= s)%Q) scores) /\
  (fst (fit X self) = Ok tt ->
   exists scores,
     decision_scores_ (snd (fit X self)) = Some scores /\
     Forall (fun s => (0 <= s)%Q) scores).
Proof.
  split.
  - intros scores l r Hok.
    destruct (decision_function_scores self X Hok) as [y [p ->]].
    apply abs_diff_nonneg.
  - intros Hok. destruct (fit_scores self X Hok) as [y [p Hs]].
    exists (abs_diff y p). split; [exact Hs | apply abs_diff_nonneg].
Qed.

Lemma scores_nonnegative_witness :
  let self := fresh persistence 3 1 (1 # 5) in
  fst (fit X_train self) = Ok tt /\
  exists scores,
    decision_scores_ (snd (fit X_train self)) = Some scores /\
    Forall (fun s => (0 <= s)%Q) scores.
Proof.
  intros self.
  assert (Hok : fst (fit X_train self) = Ok tt) by (vm_compute; reflexivity).
  split; [exact Hok |].
  exact (proj2 (@scores_nonnegative persistence self X_train) Hok).
Defined.

(** ** When the methods return *)

Section Returns.

Context (R : Regressor).
Implicit Types (self : GBRegOD R) (X : matrix).

Lemma univariate_iff X :
  check_array X = Ok X -> (univariate X = true <-> n_features X = 1%nat).
Proof.
  intros Hc. destruct (check_array_ok _ Hc) as [_ [Hlen [_ Hrows]]].
  unfold univariate. rewrite forallb_forall. split.
  - intros HX. destruct X as [|row X]; [simpl in Hlen; lia |].
    apply Nat.eqb_eq, HX. now left.
  - intros HF row Hrow. apply Nat.eqb_eq. now rewrite (Hrows row Hrow).
Qed.

Lemma fit_ok_targets self X :
  let W := window_size self in
  let S := step_size self in
  1 <= W -> 1 <= S -> fst (fit X self) = Ok tt ->
  fill_targets X S W (n_retained (n_samples X) W S)
  = Ok (targets_of X W S (n_retained (n_samples X) W S)).
Proof.
  intros W S HW HS Hok. subst W S.
  destruct (fit_ok_inv self X HW HS Hok) as [Hc [HN _]].
  destruct (fill_targets X (step_size self) (window_size self) _)
    as [y|e] eqn:Hy.
  - apply fill_targets_ok_inv in Hy; try lia. now subst y.
  - exfalso. revert Hok.
    rewrite fit_run by (try lia; assumption). cbv zeta. now rewrite Hy.
Qed.

Lemma fit_ok_univariate self X :
  1 <= window_size self -> 1 <= step_size self ->
  fst (fit X self) = Ok tt -> univariate X = true.
Proof.
  intros HW HS Hok.
  destruct (fit_ok_inv self X HW HS Hok) as [Hc [HN Hfit]].
  apply (univariate_iff Hc).
  destruct (check_array_ok _ Hc) as [_ [_ [HF _]]].
  destruct (Nat.eq_dec (n_features X) 1) as [H1 | H1]; [exact H1 |].
  rewrite fit_multivariate in Hfit by (try assumption; lia). discriminate.
Qed.

End Returns.





(** ** Scoring the training input again *)

(** X5.  After a successful [fit] on [X], [decision_function] on the same
    [X] returns the stored [decision_scores_], [left_inds_] and
    [right_inds_], and [predict] on the same [X] returns the stored
    [labels_] and the two stored index arrays, each behind [window_size]
    zeros. *)
Theorem training_input_reproduces_fit (R : Regressor) (self0 : GBRegOD R)
  (X : matrix) :
  let self := snd (fit X self0) in
  let w := Z.to_nat (window_size self0) in
  1 <= window_size self0 -> 1 <= step_size self0 ->
  fst (fit X self0) = Ok tt ->
  exists scores labels l r,
    decision_scores_ self = Some scores /\ labels_ self = Some labels /\
    left_inds_ self = Some l /\ right_inds_ self = Some r /\
    decision_function X self = (Ok (scores, l, r), self) /\
    predict X self
    = (Ok (repeat 0 w ++ labels, repeat 0 w ++ l, repeat 0 w ++ r), self).
Proof.
  intros self w HW HS Hok. subst self w.
  destruct (fit_ok_inv self0 X HW HS Hok) as [Hc [HN Hfit]].
  pose proof (fit_ok_univariate self0 X HW HS Hok) as HX.
  rewrite Hfit. cbn [snd].
  set (self := trained self0 X).
  set (W := window_size self0) in *. set (S := step_size self0) in *.
  set (n := n_retained (n_samples X) W S).
  destruct (gbr_ self) as [[|m]|] eqn:Hg; try discriminate.
  destruct (decision_scores_ self) as [scores|] eqn:Hs; try discriminate.
  destruct (threshold_ self) as [t|] eqn:Ht; try discriminate.
  assert (Hdf : decision_function X self
                = (Ok (scores, lefts S n, rights W S n), self)).
  { rewrite (@decision_function_univariate R self X m) by assumption.
    injection Hg as <-. injection Hs as <-. reflexivity. }
  assert (Ht0 : (0 <= t)%Q).
  { injection Ht as <-. apply quantile_threshold_nonneg, abs_diff_nonneg. }
  exists scores, (binarize t scores), (lefts S n), (rights W S n).
  split; [reflexivity |].
  split; [injection Hs as <-; injection Ht as <-; reflexivity |].
  split; [reflexivity |]. split; [reflexivity |].
  split; [exact Hdf |].
  erewrite predict_run;
    [| exact Hs | exact Ht | reflexivity
     | change (window_size self) with W; lia].
  rewrite Hdf. cbn [fst]. cbv zeta.
  change (window_size self) with W.
  now rewrite binarize_pad by exact Ht0.
Qed.

Lemma training_input_reproduces_fit_witness :
  let self0 := fresh persistence 3 1 (1 # 5) in
  let self := snd (fit X_train self0) in
  1 <= window_size self0 /\ 1 <= step_size self0 /\
  fst (fit X_train self0) = Ok tt /\
  exists scores labels l r,
    decision_scores_ self = Some scores /\ labels_ self = Some labels /\
    left_inds_ self = Some l /\ right_inds_ self = Some r /\
    decision_function X_train self = (Ok (scores, l, r), self) /\
    predict X_train self
    = (Ok (repeat 0 3 ++ labels, repeat 0 3 ++ l, repeat 0 3 ++ r), self).
Proof.
  intros self0 self.
  assert (HW : 1 <= window_size self0) by (vm_compute; discriminate).
  assert (HS : 1 <= step_size self0) by (vm_compute; discriminate).
  assert (Hok : fst (fit X_train self0) = Ok tt) by (vm_compute; reflexivity).
  split; [exact HW | split; [exact HS | split; [exact Hok |]]].
  exact (@training_input_reproduces_fit persistence self0 X_train HW HS Hok).
Defined.

(** ** Labels and scores at inference *)

(** X6.  Whenever [predict] returns, [decision_function] returns on the
    same input, and behind the [window_size] leading entries every label
    is the comparison of the corresponding score with [threshold_]: 1 if
    the score is strictly above it and 0 otherwise; the index arrays are
    those of [decision_function] shifted by [window_size] positions. *)
Theorem predict_labels_follow_scores (R : Regressor) (self : GBRegOD R)
  (X : matrix) (labels l r : list Z) :
  let w := Z.to_nat (window_size self) in
  fst (predict X self) = Ok (labels, l, r) ->
  exists scores l0 r0 t,
    fst (decision_function X self) = Ok (scores, l0, r0) /\
    threshold_ self = Some t /\
    length labels = (w + length scores)%nat /\
    Forall (fun b => b = 0 \/ b = 1) labels /\
    forall i, (i < length scores)%nat ->
      (nth (w + i) labels 0 = 1 <-> (t < nth i scores 0%Q)%Q) /\
      (nth (w + i) labels 0 = 0 <-> (nth i scores 0%Q <= t)%Q) /\
      nth (w + i) l 0 = nth i l0 0 /\ nth (w + i) r 0 = nth i r0 0.
Proof.
  intros w Hok. subst w.
  destruct (predict_ok_inv self X Hok)
    as [HW [scores [l0 [r0 [t [Hdf [Ht [_ [_ [-> [-> ->]]]]]]]]]]].
  set (w := Z.to_nat (window_size self)).
  exists scores, l0, r0, t.
  split; [exact Hdf |]. split; [exact Ht |].
  split; [now rewrite binarize_length, length_app, repeat_length |].
  split.
  { unfold binarize. apply Forall_forall. intros b Hb.
    apply in_map_iff in Hb. destruct Hb as [s [<- _]].
    destruct (gtb s t); [now right | now left]. }
  intros i Hi.
  assert (Hlab : nth (w + i) (binarize t (repeat 0%Q w ++ scores)) 0
                 = if gtb (nth i scores 0%Q) t then 1 else 0).
  { unfold binarize. rewrite map_app, app_nth2 by (rewrite length_map, repeat_length; lia).
    rewrite length_map, repeat_length.
    replace (w + i - w)%nat with i by lia.
    now rewrite (nth_map_lt _ _ 0%Q) by exact Hi. }
  rewrite Hlab.
  rewrite !app_nth2 by (rewrite repeat_length; lia).
  rewrite !repeat_length. replace (w + i - w)%nat with i by lia.
  destruct (gtb (nth i scores 0%Q) t) eqn:Hgt.
  - pose proof (proj1 (gtb_true _ _) Hgt) as Hlt.
    split; [split; [intros _; exact Hlt | reflexivity] |].
    split; [| split; reflexivity].
    split; [discriminate |].
    intros Hle. exfalso. exact (Qlt_not_le _ _ Hlt Hle).
  - pose proof (proj1 (gtb_false _ _) Hgt) as Hle.
    split; [| split; [split; [intros _; exact Hle | reflexivity]
                     | split; reflexivity]].
    split; [discriminate |].
    intros Hlt. exfalso. exact (Qlt_not_le _ _ Hlt Hle).
Qed.

Lemma predict_labels_follow_scores_witness :
  let self := snd (fit X_train (fresh persistence 3 1 (1 # 5))) in
  fst (predict X_test self)
  = Ok ([0; 0; 0; 0; 0; 0; 0; 0; 1; 1; 1],
        [0; 0; 0; 0; 1; 2; 3; 4; 5; 6; 7],
        [0; 0; 0; 3; 4; 5; 6; 7; 8; 9; 10]) /\
  exists scores l0 r0 t,
    fst (decision_function X_test self) = Ok (scores, l0, r0) /\
    threshold_ self = Some t /\ length scores = 8%nat.
Proof.
  intros self.
  assert (Hok : fst (predict X_test self)
                = Ok ([0; 0; 0; 0; 0; 0; 0; 0; 1; 1; 1],
                      [0; 0; 0; 0; 1; 2; 3; 4; 5; 6; 7],
                      [0; 0; 0; 3; 4; 5; 6; 7; 8; 9; 10]))
    by (vm_compute; reflexivity).
  split; [exact Hok |].
  destruct (@predict_labels_follow_scores persistence self X_test _ _ _ Hok)
    as [scores [l0 [r0 [t [Hdf [Ht [Hlen _]]]]]]].
  exists scores, l0, r0, t.
  split; [exact Hdf | split; [exact Ht |]].
  simpl length in Hlen. change (Z.to_nat (window_size self)) with 3%nat in Hlen.
  lia.
Defined.

(** X7.  On an instance that passes the check of [predict] and has a
    non-negative window size, [predict] raises exactly the exception that
    [decision_function] raises on the same input, and returns when it
    returns. *)
Theorem predict_fails_as_decision_function (R : Regressor)
  (self : GBRegOD R) (X : matrix) :
  hasattr (@decision_scores_ R) self = true ->
  hasattr (@threshold_ R) self = true ->
  hasattr (@labels_ R) self = true ->
  0 <= window_size self ->
  (forall e, fst (predict X self) = Raise e <->
             fst (decision_function X self) = Raise e) /\
  ((exists result, fst (predict X self) = Ok result) <->
   (exists result, fst (decision_function X self) = Ok result)).
Proof.
  unfold hasattr. intros Hs Ht Hl HW.
  destruct (decision_scores_ self) as [scores|] eqn:Es; [| discriminate].
  destruct (threshold_ self) as [t|] eqn:Et; [| discriminate].
  destruct (labels_ self) as [labels|] eqn:El; [| discriminate].
  rewrite (predict_run self X Es Et El HW). cbn [fst].
  destruct (fst (decision_function X self)) as [[[sc l] r]|e'].
  - split.
    + intros e. split; discriminate.
    + split; intros _; eexists; reflexivity.
  - split.
    + intros e. split; intros Heq; injection Heq as ->; reflexivity.
    + split; intros [result Hres]; discriminate.
Qed.

Lemma predict_fails_as_decision_function_witness :
  let self := snd (fit X_train (fresh persistence 3 1 (1 # 5))) in
  hasattr (@decision_scores_ persistence) self = true /\
  hasattr (@threshold_ persistence) self = true /\
  hasattr (@labels_ persistence) self = true /\
  0 <= window_size self /\
  fst (predict X_two_columns self) = Raise ValueError.
Proof.
  intros self.
  assert (Hs : hasattr (@decision_scores_ persistence) self = true)
    by (vm_compute; reflexivity).
  assert (Ht : hasattr (@threshold_ persistence) self = true)
    by (vm_compute; reflexivity).
  assert (Hl : hasattr (@labels_ persistence) self = true)
    by (vm_compute; reflexivity).
  assert (HW : 0 <= window_size self) by (vm_compute; discriminate).
  split; [exact Hs | split; [exact Ht | split; [exact Hl |
    split; [exact HW |]]]].
  apply (proj1 (@predict_fails_as_decision_function persistence self
                  X_two_columns Hs Ht Hl HW)).
  vm_compute. reflexivity.
Defined.

(** ** Fitting again *)

Section Refit.

Context (R : Regressor).
Implicit Types (self : GBRegOD R) (X : matrix).




(** The outcome of [predict] is a function of the window size, the step
    size, the estimator, the threshold and the presence of the scores and
    labels. *)
Lemma predict_depends self self' X :
  window_size self' = window_size self ->
  step_size self' = step_size self ->
  gbr_ self' = gbr_ self ->
  threshold_ self' = threshold_ self ->
  hasattr (@decision_scores_ R) self' = hasattr (@decision_scores_ R) self ->
  hasattr (@labels_ R) self' = hasattr (@labels_ R) self ->
  fst (predict X self') = fst (predict X self).
Proof.
  intros EW ES Eg Et Es El.
  pose proof (decision_function_depends self self' X EW ES Eg) as Hdf.
  pose proof (decision_function_frame self X) as Hframe.
  pose proof (decision_function_frame self' X) as Hframe'.
  unfold predict, check_is_fitted. run. cbn [forallb].
  rewrite Es, El. unfold hasattr at 2 5. rewrite Et.
  destruct (hasattr (@decision_scores_ R) self && _); [| reflexivity].
  destruct (decision_function X self) as [r1 s1],
    (decision_function X self') as [r2 s2].
  cbn [fst snd] in *. subst r2 s1 s2.
  destruct r1 as [[[sc l] r]|e]; [| reflexivity].
  rewrite EW, Et. unfold zeros.
  destruct (window_size self <? 0); [reflexivity |].
  destruct (threshold_ self); reflexivity.
Qed.

End Refit.



(** X9.  After a successful [fit] the fitted attributes agree with one
    another: [left_inds_], [right_inds_], [decision_scores_] and [labels_]
    all have [valid_len_] entries, there is at least one, and [gbr_] holds
    a fitted regressor. *)
Theorem fitted_state_is_consistent (R : Regressor) (self0 : GBRegOD R)
  (X : matrix) :
  let self := snd (fit X self0) in
  1 <= window_size self0 -> 1 <= step_size self0 ->
  fst (fit X self0) = Ok tt ->
  exists n l r scores labels m t,
    valid_len_ self = Some n /\ (1 <= n)%nat /\
    left_inds_ self = Some l /\ length l = n /\
    right_inds_ self = Some r /\ length r = n /\
    decision_scores_ self = Some scores /\ length scores = n /\
    labels_ self = Some labels /\ length labels = n /\
    gbr_ self = Some (Fitted m) /\ threshold_ self = Some t /\
    populated self = true.
Proof.
  intros self HW HS Hok. subst self.
  destruct (fit_ok_inv self0 X HW HS Hok) as [_ [HN ->]]. cbn [snd].
  unfold trained.
  set (W := window_size self0) in *. set (S := step_size self0) in *.
  set (n := n_retained (n_samples X) W S).
  do 7 eexists.
  split; [reflexivity |].
  split; [apply n_retained_pos; assumption |].
  split; [reflexivity |]. split; [apply lefts_length |].
  split; [reflexivity |]. split; [apply rights_length |].
  split; [reflexivity |].
  assert (Hlen : length (abs_diff (targets_of X W S n)
                   (raw_predict R
                      (train R (windows_of X W S n) (targets_of X W S n))
                      (windows_of X W S n))) = n).
  { rewrite abs_diff_length; [apply targets_of_length |].
    now rewrite raw_predict_length, targets_of_length, windows_of_length. }
  split; [exact Hlen |].
  split; [reflexivity |].
  split; [now rewrite binarize_length |].
  split; [reflexivity |]. split; reflexivity.
Qed.

Lemma fitted_state_is_consistent_witness :
  let self0 := fresh persistence 3 2 (1 # 5) in
  let self := snd (fit X_train self0) in
  1 <= window_size self0 /\ 1 <= step_size self0 /\
  fst (fit X_train self0) = Ok tt /\
  exists n scores labels,
    valid_len_ self = Some n /\
    decision_scores_ self = Some scores /\ length scores = n /\
    labels_ self = Some labels /\ length labels = n.
Proof.
  intros self0 self.
  assert (HW : 1 <= window_size self0) by (vm_compute; discriminate).
  assert (HS : 1 <= step_size self0) by (vm_compute; discriminate).
  assert (Hok : fst (fit X_train self0) = Ok tt) by (vm_compute; reflexivity).
  split; [exact HW | split; [exact HS | split; [exact Hok |]]].
  destruct (@fitted_state_is_consistent persistence self0 X_train HW HS Hok)
    as [n [l [r [scores [labels [m [t
         [Hn [_ [_ [_ [_ [_ [Hs [Hls [Hl [Hll _]]]]]]]]]]]]]]]]].
  exists n, scores, labels.
  split; [exact Hn | split; [exact Hs | split; [exact Hls |
    split; [exact Hl | exact Hll]]]].
Defined.

(** X10.  A call of [fit] that fails in the target loop (a well-formed
    input of two or more columns with at least one kept window) leaves
    inference as it was: afterwards [decision_function] and [predict]
    return or raise, on every input, exactly as they did before the
    call. *)
Theorem failed_fit_keeps_inference (R : Regressor) (self : GBRegOD R)
  (X2 : matrix) :
  1 <= window_size self -> 1 <= step_size self ->
  check_array X2 = Ok X2 -> (2 <= n_features X2)%nat ->
  window_size self + step_size self <= n_samples X2 ->
  fst (fit X2 self) = Raise ValueError /\
  forall X,
    fst (decision_function X (snd (fit X2 self)))
    = fst (decision_function X self) /\
    fst (predict X (snd (fit X2 self))) = fst (predict X self).
Proof.
  intros HW HS Hc HF HN.
  rewrite fit_multivariate by assumption. cbn [fst snd].
  split; [reflexivity |]. intros X. split.
  - apply decision_function_depends; reflexivity.
  - apply predict_depends; reflexivity.
Qed.

Lemma failed_fit_keeps_inference_witness :
  let self := snd (fit X_train (fresh persistence 3 1 (1 # 5))) in
  1 <= window_size self /\ 1 <= step_size self /\
  check_array X_two_columns = Ok X_two_columns /\
  (2 <= n_features X_two_columns)%nat /\
  window_size self + step_size self <= n_samples X_two_columns /\
  fst (predict X_test (snd (fit X_two_columns self)))
  = fst (predict X_test self).
Proof.
  intros self.
  assert (HW : 1 <= window_size self) by (vm_compute; discriminate).
  assert (HS : 1 <= step_size self) by (vm_compute; discriminate).
  assert (Hc : check_array X_two_columns = Ok X_two_columns)
    by (vm_compute; reflexivity).
  assert (HF : (2 <= n_features X_two_columns)%nat) by (vm_compute; lia).
  assert (HN : window_size self + step_size self <= n_samples X_two_columns)
    by (vm_compute; discriminate).
  split; [exact HW | split; [exact HS | split; [exact Hc |
    split; [exact HF | split; [exact HN |]]]]].
  exact (proj2 (proj2 (@failed_fit_keeps_inference persistence self
                         X_two_columns HW HS Hc HF HN) X_test)).
Defined.

(** X11.  A call of [fit] on a well-formed input too short to keep a
    window ([window_size <= N < window_size + step_size]) raises after it
    has replaced the estimator by an unfitted one: a detector that scored a
    one-column input before the call raises NotFittedError on it
    afterwards, from [decision_function] and from [predict]. *)
Theorem failed_fit_discards_model (R : Regressor) (self : GBRegOD R)
  (m : model R) (X2 X : matrix) :
  let after := snd (fit X2 self) in
  1 <= window_size self -> 1 <= step_size self ->
  gbr_ self = Some (Fitted m) ->
  check_array X2 = Ok X2 ->
  window_size self <= n_samples X2 < window_size self + step_size self ->
  univariate X = true -> window_size self + step_size self <= n_samples X ->
  (exists result, fst (decision_function X self) = Ok result) /\
  fst (fit X2 self) = Raise ValueError /\
  gbr_ after = Some Unfitted /\
  fst (decision_function X after) = Raise NotFittedError /\
  (hasattr (@decision_scores_ R) self = true ->
   hasattr (@threshold_ R) self = true ->
   hasattr (@labels_ R) self = true ->
   fst (predict X after) = Raise NotFittedError).
Proof.
  intros after HW HS Hg Hc HN2 HX HN. subst after.
  rewrite fit_no_window by (try assumption; lia). cbn [fst snd].
  set (after := with_gbr_ Unfitted (windowed self (n_samples X2))).
  assert (Hdf : fst (decision_function X after) = Raise NotFittedError).
  { rewrite (@decision_function_run R after X Unfitted);
      [| exact HS | change (window_size after) with (window_size self); lia
       | reflexivity].
    cbv zeta. cbn [fst].
    change (window_size after) with (window_size self).
    change (step_size after) with (step_size self).
    rewrite fill_targets_univariate by (try assumption; lia).
    reflexivity. }
  split.
  { eexists. rewrite (@decision_function_univariate R self X m) by assumption.
    reflexivity. }
  split; [reflexivity |]. split; [reflexivity |]. split; [exact Hdf |].
  unfold hasattr. intros Hs Ht Hl.
  destruct (decision_scores_ self) as [scores|] eqn:Es; [| discriminate].
  destruct (threshold_ self) as [t|] eqn:Et; [| discriminate].
  destruct (labels_ self) as [labels|] eqn:El; [| discriminate].
  rewrite (@predict_run R after X scores t labels);
    [| exact Es | exact Et | exact El
     | change (window_size after) with (window_size self); lia].
  cbn [fst]. now rewrite Hdf.
Qed.

Lemma failed_fit_discards_model_witness :
  let self := snd (fit X_train (fresh persistence 3 1 (1 # 5))) in
  let after := snd (fit X_three self) in
  1 <= window_size self /\ 1 <= step_size self /\
  gbr_ self = Some (Fitted (tt : model persistence)) /\
  check_array X_three = Ok X_three /\
  window_size self <= n_samples X_three < window_size self + step_size self /\
  univariate X_test = true /\
  window_size self + step_size self <= n_samples X_test /\
  fst (decision_function X_test after) = Raise NotFittedError.
Proof.
  intros self after.
  assert (HW : 1 <= window_size self) by (vm_compute; discriminate).
  assert (HS : 1 <= step_size self) by (vm_compute; discriminate).
  assert (Hg : gbr_ self = Some (Fitted (tt : model persistence)))
    by (vm_compute; reflexivity).
  assert (Hc : check_array X_three = Ok X_three) by (vm_compute; reflexivity).
  assert (HN2 : window_size self <= n_samples X_three
                < window_size self + step_size self)
    by (vm_compute; split; [discriminate | reflexivity]).
  assert (HX : univariate X_test = true) by (vm_compute; reflexivity).
  assert (HN : window_size self + step_size self <= n_samples X_test)
    by (vm_compute; discriminate).
  split; [exact HW | split; [exact HS | split; [exact Hg | split; [exact Hc |
    split; [exact HN2 | split; [exact HX | split; [exact HN |]]]]]]].
  exact (proj1 (proj2 (proj2 (proj2
    (@failed_fit_discards_model persistence self tt X_three X_test
       HW HS Hg Hc HN2 HX HN))))).
Defined.

(** ** Targets with a step of one *)

Section StepOne.

Lemma targets_of_step_one (X : matrix) (W : Z) :
  1 <= W -> W <= n_samples X ->
  targets_of X W 1 (n_retained (n_samples X) W 1)
  = map (hd 0%Q) (skipn (Z.to_nat W) X).
Proof.
  intros HW HN. unfold n_samples in *.
  assert (Hn : n_retained (Z.of_nat (length X)) W 1
               = (length X - Z.to_nat W)%nat).
  { unfold n_retained. rewrite Z.div_1_r. lia. }
  rewrite Hn.
  apply (nth_ext _ _ 0%Q 0%Q).
  - now rewrite targets_of_length, length_map, length_skipn.
  - intros i Hi. rewrite targets_of_length in Hi.
    unfold targets_of.
    rewrite (nth_map_lt _ _ 0) by now rewrite lefts_length.
    rewrite lefts_nth by exact Hi.
    rewrite (nth_map_lt _ _ []) by (rewrite length_skipn; exact Hi).
    rewrite nth_skipn. unfold sample. do 2 f_equal. lia.
Qed.

End StepOne.

(** X12.  With [step_size = 1] the targets are the samples of the input
    from row [window_size] on, each exactly once and in order: the target
    loop yields them, and a successful [fit] trains the regressor on
    them. *)
Theorem step_one_targets (R : Regressor) (self : GBRegOD R) (X : matrix) :
  let W := window_size self in
  let n := n_retained (n_samples X) W 1 in
  1 <= W -> step_size self = 1 -> W <= n_samples X ->
  Z.of_nat n = n_samples X - W /\
  (univariate X = true ->
   fill_targets X 1 W n = Ok (map (hd 0%Q) (skipn (Z.to_nat W) X))) /\
  (fst (fit X self) = Ok tt ->
   gbr_ (snd (fit X self))
   = Some (Fitted (train R (windows_of X W 1 n)
                     (map (hd 0%Q) (skipn (Z.to_nat W) X))))).
Proof.
  intros W n HW HS HN. subst W n.
  split; [unfold n_retained; rewrite Z.div_1_r; lia |]. split.
  - intros HX.
    rewrite fill_targets_univariate by (try assumption; lia).
    now rewrite targets_of_step_one.
  - intros Hok.
    destruct (fit_ok_inv self X) as [_ [_ ->]]; [lia | lia | exact Hok |].
    cbn [snd trained gbr_]. rewrite HS.
    now rewrite targets_of_step_one.
Qed.

Lemma step_one_targets_witness :
  let self := fresh persistence 3 1 (1 # 5) in
  1 <= window_size self /\ step_size self = 1 /\
  window_size self <= n_samples X_train /\ univariate X_train = true /\
  fill_targets X_train 1 3 11
  = Ok [16; 18; 13; 22; 36; 59; 128; 62; 67; 78; 100]%Q.
Proof.
  intros self.
  assert (HW : 1 <= window_size self) by (vm_compute; discriminate).
  assert (HS : step_size self = 1) by reflexivity.
  assert (HN : window_size self <= n_samples X_train)
    by (vm_compute; discriminate).
  assert (HX : univariate X_train = true) by (vm_compute; reflexivity).
  split; [exact HW | split; [exact HS | split; [exact HN |
    split; [exact HX |]]]].
  exact (proj1 (proj2 (@step_one_targets persistence self X_train
                         HW HS HN)) HX).
Defined.

(** ** The exceptions a caller can see *)

(** X13.  For [window_size >= 1] and [step_size >= 1], [fit] raises nothing
    but ValueError, or InvalidInputError on an input shorter than the
    window; [decision_function] and [predict] raise nothing but
    NotFittedError, ValueError, or InvalidInputError on an input shorter
    than the window.  No method fails on reading an attribute of the
    instance. *)
Theorem raised_exceptions (R : Regressor) (self : GBRegOD R) (X : matrix)
  (e : exn) :
  1 <= window_size self -> 1 <= step_size self ->
  (fst (fit X self) = Raise e ->
   e = ValueError \/
   (e = InvalidInputError /\ n_samples X < window_size self)) /\
  (fst (decision_function X self) = Raise e ->
   e = NotFittedError \/ e = ValueError \/
   (e = InvalidInputError /\ n_samples X < window_size self)) /\
  (fst (predict X self) = Raise e ->
   e = NotFittedError \/ e = ValueError \/
   (e = InvalidInputError /\ n_samples X < window_size self)).
Proof.
  intros HW HS.
  assert (Hdf : fst (decision_function X self) = Raise e ->
            e = NotFittedError \/ e = ValueError \/
            (e = InvalidInputError /\ n_samples X < window_size self)).
  { destruct (gbr_ self) as [est|] eqn:Hg.
    2:{ rewrite decision_function_unfitted by assumption. cbn [fst].
        intros Heq. injection Heq as <-. now left. }
    destruct (Z.lt_ge_cases (n_samples X) (window_size self)) as [Hlt | HN].
    { unfold decision_function, check_is_fitted, hasattr. run.
      cbn [forallb andb]. rewrite Hg. cbn [andb].
      rewrite get_sub_matrices_short by assumption. cbn [fst].
      intros Heq. injection Heq as <-. right. right. now split. }
    rewrite (@decision_function_run R self X est) by (try lia; assumption).
    cbv zeta. cbn [fst].
    destruct (fill_targets _ _ _ _) as [y|e'] eqn:Hy.
    - destruct est as [|m]; simpl.
      + intros Heq. injection Heq as <-. now left.
      + destruct (windows_of _ _ _ _); [| discriminate].
        intros Heq. injection Heq as <-. right. now left.
    - apply fill_targets_raises in Hy; try lia. subst e'.
      intros Heq. injection Heq as <-. right. now left. }
  split; [| split; [exact Hdf |]].
  - destruct (fit_cases self X HW HS)
      as [[_ ->] | [[_ [Hlt ->]] | [[_ [_ [-> | ->]]] | [_ [_ ->]]]]];
      cbn [fst]; intros Heq; try discriminate; injection Heq as <-;
      try (now left).
    right. now split.
  - unfold predict, check_is_fitted. run. cbn [forallb].
    destruct (hasattr (@decision_scores_ R) self); cbn [andb].
    2:{ cbn [fst]. intros Heq. injection Heq as <-. now left. }
    destruct (hasattr (@threshold_ R) self) eqn:Ht; cbn [andb].
    2:{ cbn [fst]. intros Heq. injection Heq as <-. now left. }
    destruct (hasattr (@labels_ R) self); cbn [andb].
    2:{ cbn [fst]. intros Heq. injection Heq as <-. now left. }
    pose proof (decision_function_frame self X) as Hframe.
    destruct (decision_function X self) as [[[[sc l] r]|e'] self'];
      cbn [fst snd] in *; subst self'.
    + unfold zeros. destruct (Z.ltb_spec (window_size self) 0); [lia |].
      unfold hasattr in Ht.
      destruct (threshold_ self); [| discriminate]. discriminate.
    + intros Heq. injection Heq as <-. now apply Hdf.
Qed.

Lemma raised_exceptions_witness :
  let self := fresh persistence 3 1 (1 # 5) in
  let X := column [1; 2]%Q in
  1 <= window_size self /\ 1 <= step_size self /\
  fst (fit X self) = Raise InvalidInputError /\
  (InvalidInputError = ValueError \/
   (InvalidInputError = InvalidInputError /\ n_samples X < window_size self)).
Proof.
  intros self X.
  assert (HW : 1 <= window_size self) by (vm_compute; discriminate).
  assert (HS : 1 <= step_size self) by (vm_compute; discriminate).
  assert (Hraise : fst (fit X self) = Raise InvalidInputError)
    by (vm_compute; reflexivity).
  split; [exact HW | split; [exact HS | split; [exact Hraise |]]].
  exact (proj1 (@raised_exceptions persistence self X InvalidInputError
                  HW HS) Hraise).
Defined.
